(** * Attendance backend (frontend/backend/app.py): a shallow embedding

    The Flask application keeps three SQLite tables (users, events,
    attendance) and answers JSON requests.  Each route is embedded as a
    function from the session, the request and the store to a response
    and a new store.  A table is the list of its rows in insertion
    (rowid) order; a request body and the session are finite maps from
    keys to text; the clock and [os.urandom] are inputs of the routes
    that read them.

    Text is a sequence of code points below 256, which is what a Rocq
    [string] holds; on that range [lower] below is Python's [str.lower],
    and the byte order of [String.compare] is the order SQLite's BINARY
    collation gives to TEXT.  Members of a request body are JSON
    strings.  Every route of the application is embedded; [get_db], which
    only opens the connection, has no counterpart. *)

From Stdlib Require Import Strings.Ascii Strings.String Strings.Byte.
From stdpp Require Import base option list strings gmap sorting pretty.

Local Open Scope string_scope.
Set Warnings "-clear-no-such-hyp".

(** ** Text *)

(** [str.lower] on one code point: A-Z, and the capital letters of the
    Latin-1 block (U+00C0 to U+00DE without the multiplication sign). *)
Definition lower_char (c : ascii) : ascii :=
  let n := N_of_ascii c in
  if ((65 <=? n) && (n <=? 90) || (192 <=? n) && (n <=? 222) && negb (n =? 215))%N
  then ascii_of_N (n + 32) else c.

Fixpoint lower (s : string) : string :=
  match s with
  | EmptyString => EmptyString
  | String c s' => String (lower_char c) (lower s')
  end.

(** [str.isupper] on one code point below 256: the letters that have a
    lowercase, A-Z and the capitals of Latin-1. *)
Definition isupper (c : ascii) : bool :=
  let n := N_of_ascii c in
  ((65 <=? n) && (n <=? 90) || (192 <=? n) && (n <=? 222) && negb (n =? 215))%N.

(** A text without an uppercase letter. *)
Definition no_uppercase (s : string) : Prop :=
  Forall (fun c => isupper c = false) (list_ascii_of_string s).

(** Python truthiness of [data.get(key)]: a missing key and the empty
    string are both falsy. *)
Definition truthy (v : option string) : bool :=
  match v with
  | Some s => negb (String.eqb s "")
  | None => false
  end.

(** [data.get(key, '')]. *)
Definition get_or_empty (data : gmap string string) (key : string) : string :=
  default "" (data !! key).

(** [bytes.hex()]. *)
Definition hex_digit (n : N) : ascii :=
  default "0"%char (String.get (N.to_nat n) "0123456789abcdef").

Definition hex_byte (b : byte) : string :=
  let n := Byte.to_N b in
  String (hex_digit (n / 16)) (String (hex_digit (n mod 16)) EmptyString).

Definition hex (bs : list byte) : string :=
  foldr (fun b acc => hex_byte b +:+ acc) "" bs.

(** What a route reads from its environment: [datetime.now()], as the
    integer part of its timestamp and as its ISO text, and the four bytes
    of [os.urandom(4)]. *)
Record Env := {
  now_timestamp : Z;
  now_isoformat : string;
  urandom4 : list byte
}.

(** [f"{prefix}_{int(datetime.now().timestamp())}_{os.urandom(4).hex()}"]. *)
Definition fresh_id (prefix : string) (env : Env) : string :=
  prefix +:+ "_" +:+ pretty (now_timestamp env) +:+ "_" +:+ hex (urandom4 env).

(** ** Tables *)

Module Users.
Record row := {
  id : string;
  student_id : option string;
  first_name : string;
  last_name : string;
  email : string;
  password : string;
  role : string;
  status : string;
  profile_photo : option string;
  qr_code : option string;
  created_at : string
}.
End Users.

Module Events.
Record row := {
  id : string;
  name : string;
  description : string;
  date : string;
  start_time : string;
  end_time : string;
  status : string;
  created_at : string
}.
End Events.

Module Attendance.
Record row := {
  id : string;
  event_id : string;
  student_id : string;
  student_name : string;
  student_photo : option string;
  timestamp : string
}.
End Attendance.

Record Store := {
  users : list Users.row;
  events : list Events.row;
  attendance : list Attendance.row
}.

Definition empty_store : Store := {| users := []; events := []; attendance := [] |}.

Definition set_users (st : Store) (us : list Users.row) : Store :=
  {| users := us; events := events st; attendance := attendance st |}.

Definition set_events (st : Store) (es : list Events.row) : Store :=
  {| users := users st; events := es; attendance := attendance st |}.

Definition set_attendance (st : Store) (rs : list Attendance.row) : Store :=
  {| users := users st; events := events st; attendance := rs |}.

(** ** Responses *)

(** The user dictionary of [login] and [get_user]; [ud_created_at] is
    [None] where the dictionary has no such key ([login]). *)
Record user_data := {
  ud_id : string;
  ud_student_id : option string;
  ud_first_name : string;
  ud_last_name : string;
  ud_email : string;
  ud_role : string;
  ud_status : string;
  ud_profile_photo : option string;
  ud_qr_code : option string;
  ud_created_at : option string
}.

Inductive Body :=
  | json_error (msg : string)
  | json_message (msg : string)
  | json_message_event (msg event_id : string)
  | json_user (u : user_data)
  | json_attendance (records : list Attendance.row).

Definition Response : Type := nat * Body.

(** Flask's [session]: the keys ['user_id'] and ['role'] set by [login]. *)
Abbreviation Session := (gmap string string).

Definition is_admin (session : Session) : bool :=
  bool_decide (session !! "role" = Some "admin").

Definition unauthorized : Response := (403, json_error "Unauthorized").

(** ** SQL statements over a table *)

(** What [cursor.execute] yields: the new table, or [sqlite3.IntegrityError]
    with its message when a PRIMARY KEY or UNIQUE constraint fails. *)
Inductive result (A : Type) :=
  | Ok (a : A)
  | IntegrityError (msg : string).
Arguments Ok {A} a.
Arguments IntegrityError {A} msg.

Section sql.
Context {A : Type}.

(** [SELECT * FROM t WHERE P], rows in rowid order. *)
Definition select (P : A -> Prop) `{!forall r, Decision (P r)} (rows : list A) : list A :=
  filter P rows.

(** [cursor.fetchone()]. *)
Definition fetchone (rows : list A) : option A := head rows.

(** [DELETE FROM t WHERE P]. *)
Definition delete_where (P : A -> Prop) `{!forall r, Decision (P r)} (rows : list A) : list A :=
  filter (fun r => ~ P r) rows.

(** [UPDATE t SET ... WHERE P], the assignments given as [f]. *)
Definition update_where (P : A -> Prop) `{!forall r, Decision (P r)} (f : A -> A)
    (rows : list A) : list A :=
  (fun r => if decide (P r) then f r else r) <$> rows.

(** [ORDER BY]: the rows sorted so that [before] holds from each row to the
    rows after it; rows that tie stay in rowid order, as SQLite returns
    them. *)
Fixpoint insert_sorted (before : A -> A -> Prop) `{!RelDecision before} (x : A)
    (rows : list A) : list A :=
  match rows with
  | [] => [x]
  | y :: rows' =>
    if decide (before x y) then x :: rows else y :: insert_sorted before x rows'
  end.

Definition order_by (before : A -> A -> Prop) `{!RelDecision before} (rows : list A)
    : list A :=
  foldr (insert_sorted before) [] rows.
End sql.

(** [INSERT INTO users]: [id] is the PRIMARY KEY, [email] and [student_id]
    are UNIQUE (a NULL [student_id] never collides). *)
Definition users_insert (u : Users.row) (rows : list Users.row) : result (list Users.row) :=
  if decide (Users.id u ∈ Users.id <$> rows)
  then IntegrityError "UNIQUE constraint failed: users.id"
  else if decide (is_Some (Users.student_id u) ∧ Users.student_id u ∈ Users.student_id <$> rows)
  then IntegrityError "UNIQUE constraint failed: users.student_id"
  else if decide (Users.email u ∈ Users.email <$> rows)
  then IntegrityError "UNIQUE constraint failed: users.email"
  else Ok (rows ++ [u])%list.

Definition events_insert (e : Events.row) (rows : list Events.row) : result (list Events.row) :=
  if decide (Events.id e ∈ Events.id <$> rows)
  then IntegrityError "UNIQUE constraint failed: events.id"
  else Ok (rows ++ [e])%list.

Definition attendance_insert (r : Attendance.row) (rows : list Attendance.row)
    : result (list Attendance.row) :=
  if decide (Attendance.id r ∈ Attendance.id <$> rows)
  then IntegrityError "UNIQUE constraint failed: attendance.id"
  else Ok (rows ++ [r])%list.

(** One [column = ?] of a dynamically built UPDATE, with its parameter. *)
Definition set_user_column (u : Users.row) (assignment : string * string) : Users.row :=
  let '(column, v) := assignment in
  {| Users.id := Users.id u;
     Users.student_id := Users.student_id u;
     Users.first_name := if decide (column = "first_name") then v else Users.first_name u;
     Users.last_name := if decide (column = "last_name") then v else Users.last_name u;
     Users.email := if decide (column = "email") then v else Users.email u;
     Users.password := if decide (column = "password") then v else Users.password u;
     Users.role := if decide (column = "role") then v else Users.role u;
     Users.status := if decide (column = "status") then v else Users.status u;
     Users.profile_photo :=
       if decide (column = "profile_photo") then Some v else Users.profile_photo u;
     Users.qr_code := if decide (column = "qr_code") then Some v else Users.qr_code u;
     Users.created_at := Users.created_at u |}.

Definition set_event_column (e : Events.row) (assignment : string * string) : Events.row :=
  let '(column, v) := assignment in
  {| Events.id := Events.id e;
     Events.name := if decide (column = "name") then v else Events.name e;
     Events.description := if decide (column = "description") then v else Events.description e;
     Events.date := if decide (column = "date") then v else Events.date e;
     Events.start_time := if decide (column = "start_time") then v else Events.start_time e;
     Events.end_time := if decide (column = "end_time") then v else Events.end_time e;
     Events.status := if decide (column = "status") then v else Events.status e;
     Events.created_at := Events.created_at e |}.

(** [UPDATE users SET <assignments> WHERE id = ?].  The statement fails
    when it gives the row an [email] that another row holds. *)
Definition users_update (assignments : list (string * string)) (user_id : string)
    (rows : list Users.row) : result (list Users.row) :=
  let assign u := foldl set_user_column u assignments in
  if decide ("email" ∈ assignments.*1 ∧
             Exists (fun u => Users.id u = user_id ∧
                       Exists (fun v => Users.id v ≠ user_id ∧
                                        Users.email v = Users.email (assign u)) rows) rows)
  then IntegrityError "UNIQUE constraint failed: users.email"
  else Ok (update_where (fun u => Users.id u = user_id) assign rows).

(** [ORDER BY timestamp DESC]. *)
Definition timestamp_desc (r1 r2 : Attendance.row) : Prop :=
  String.le (Attendance.timestamp r2) (Attendance.timestamp r1).

#[global] Instance timestamp_desc_dec : RelDecision timestamp_desc.
Proof. intros r1 r2. unfold timestamp_desc. apply _. Defined.

Definition order_by_timestamp_desc (rows : list Attendance.row) : list Attendance.row :=
  order_by timestamp_desc rows.

(** ** Routes *)

Definition admin_email : string := "hckthon2026@gmail.com".

(** [init_db()], run when the application starts: the tables are created
    if missing and the default admin is inserted unless a user with its
    email exists.  An exception here stops the start-up and writes
    nothing. *)
Definition init_db (env : Env) (st : Store) : Store :=
  match fetchone (select (fun u => Users.email u = admin_email) (users st)) with
  | Some _ => st
  | None =>
    let admin_id := "admin_" +:+ pretty (now_timestamp env) in
    match users_insert
            {| Users.id := admin_id; Users.student_id := None;
               Users.first_name := "Admin"; Users.last_name := "User";
               Users.email := admin_email; Users.password := "hckthon2026";
               Users.role := "admin"; Users.status := "verified";
               Users.profile_photo := None; Users.qr_code := None;
               Users.created_at := now_isoformat env |} (users st) with
    | Ok us => set_users st us
    | IntegrityError _ => st
    end
  end.

(** The dictionary [user_data] built from a row; [get_user] adds
    ['created_at'], [login] does not. *)
Definition user_data_of (user : Users.row) (with_created_at : bool) : user_data :=
  {| ud_id := Users.id user;
     ud_student_id := Users.student_id user;
     ud_first_name := Users.first_name user;
     ud_last_name := Users.last_name user;
     ud_email := Users.email user;
     ud_role := Users.role user;
     ud_status := Users.status user;
     ud_profile_photo := Users.profile_photo user;
     ud_qr_code := Users.qr_code user;
     ud_created_at := if with_created_at then Some (Users.created_at user) else None |}.

(** POST /api/auth/register.  Every subscript [data[...]] below follows
    the check that the key is present. *)
Definition register (data : gmap string string) (env : Env) (st : Store) : Response * Store :=
  match find (fun field => negb (truthy (data !! field)))
             ["student_id"; "first_name"; "last_name"; "email"; "password"] with
  | Some field => ((400, json_error ("Missing required field: " +:+ field)), st)
  | None =>
    if decide (String.length (data !!! "password") < 6)
    then ((400, json_error "Password must be at least 6 characters"), st)
    else
      match fetchone (select (fun u => Users.email u = lower (data !!! "email")) (users st)) with
      | Some _ => ((409, json_error "Email already registered"), st)
      | None =>
        match fetchone (select (fun u => Users.student_id u = Some (data !!! "student_id"))
                               (users st)) with
        | Some _ => ((409, json_error "Student ID already registered"), st)
        | None =>
          let user_id := fresh_id "student" env in
          match users_insert
                  {| Users.id := user_id;
                     Users.student_id := Some (data !!! "student_id");
                     Users.first_name := data !!! "first_name";
                     Users.last_name := data !!! "last_name";
                     Users.email := lower (data !!! "email");
                     Users.password := data !!! "password";
                     Users.role := "student"; Users.status := "pending";
                     Users.profile_photo := None; Users.qr_code := None;
                     Users.created_at := now_isoformat env |} (users st) with
          | Ok us =>
            ((201, json_message "Registration successful. Awaiting admin verification."),
             set_users st us)
          | IntegrityError msg => ((500, json_error msg), st)
          end
        end
      end
  end.

(** POST /api/auth/login: the response and the session it leaves. *)
Definition login (session : Session) (data : gmap string string) (st : Store)
    : Response * Session :=
  let email := lower (get_or_empty data "email") in
  let password := get_or_empty data "password" in
  if negb (truthy (Some email)) || negb (truthy (Some password))
  then ((400, json_error "Email and password required"), session)
  else
    match fetchone (select (fun u => Users.email u = email ∧ Users.password u = password)
                           (users st)) with
    | None => ((401, json_error "Invalid credentials"), session)
    | Some user =>
      ((200, json_user (user_data_of user false)),
       <["role" := Users.role user]> (<["user_id" := Users.id user]> session))
    end.

(** The guard of [get_user] and [update_user]:
    [session.get('user_id') != user_id and session.get('role') != 'admin']. *)
Definition not_self_nor_admin (session : Session) (user_id : string) : bool :=
  negb (bool_decide (session !! "user_id" = Some user_id)) && negb (is_admin session).

(** GET /api/users/<user_id>. *)
Definition get_user (session : Session) (user_id : string) (st : Store) : Response :=
  if not_self_nor_admin session user_id then unauthorized
  else
    match fetchone (select (fun u => Users.id u = user_id) (users st)) with
    | None => (404, json_error "User not found")
    | Some user => (200, json_user (user_data_of user true))
    end.

(** The [update_fields] and [params] that [update_user] collects. *)
Definition update_user_fields (data : gmap string string) : list (string * string) :=
  (match data !! "first_name" with Some v => [("first_name", v)] | None => [] end ++
   match data !! "last_name" with Some v => [("last_name", v)] | None => [] end ++
   match data !! "email" with Some v => [("email", lower v)] | None => [] end ++
   match data !! "password" with
   | Some v => if decide (6 <= String.length v) then [("password", v)] else []
   | None => []
   end ++
   match data !! "profile_photo" with Some v => [("profile_photo", v)] | None => [] end)%list.

(** PUT /api/users/<user_id>. *)
Definition update_user (session : Session) (user_id : string) (data : gmap string string)
    (st : Store) : Response * Store :=
  if not_self_nor_admin session user_id then (unauthorized, st)
  else
    let update_fields := update_user_fields data in
    if decide (update_fields = []) then ((400, json_error "No fields to update"), st)
    else
      match users_update update_fields user_id (users st) with
      | Ok us => ((200, json_message "Profile updated successfully"), set_users st us)
      | IntegrityError msg => ((500, json_error msg), st)
      end.

(** DELETE /api/users/<user_id>. *)
Definition delete_user (session : Session) (user_id : string) (st : Store) : Response * Store :=
  if negb (is_admin session) then (unauthorized, st)
  else
    ((200, json_message "User deleted successfully"),
     {| users := delete_where (fun u => Users.id u = user_id) (users st);
        events := events st;
        attendance := delete_where (fun r => Attendance.student_id r = user_id) (attendance st) |}).

(** POST /api/users/<user_id>/verify. *)
Definition verify_user (session : Session) (user_id : string) (data : gmap string string)
    (st : Store) : Response * Store :=
  if negb (is_admin session) then (unauthorized, st)
  else if negb (truthy (data !! "qr_code")) then ((400, json_error "QR code required"), st)
  else
    ((200, json_message "User verified successfully"),
     set_users st
       (update_where (fun u => Users.id u = user_id)
          (fun u => foldl set_user_column u [("status", "verified"); ("qr_code", data !!! "qr_code")])
          (users st))).

(** PUT /api/users/<user_id>/role. *)
Definition update_user_role (session : Session) (user_id : string) (data : gmap string string)
    (st : Store) : Response * Store :=
  if negb (is_admin session) then (unauthorized, st)
  else if decide (data !! "role" = Some "student" ∨ data !! "role" = Some "admin")
  then
    ((200, json_message "Role updated successfully"),
     set_users st
       (update_where (fun u => Users.id u = user_id)
          (fun u => set_user_column u ("role", data !!! "role")) (users st)))
  else ((400, json_error "Invalid role"), st).

(** POST /api/events. *)
Definition create_event (session : Session) (data : gmap string string) (env : Env)
    (st : Store) : Response * Store :=
  if negb (is_admin session) then (unauthorized, st)
  else
    match find (fun field => negb (truthy (data !! field)))
               ["name"; "description"; "date"; "start_time"; "end_time"] with
    | Some field => ((400, json_error ("Missing required field: " +:+ field)), st)
    | None =>
      let event_id := fresh_id "event" env in
      match events_insert
              {| Events.id := event_id;
                 Events.name := data !!! "name";
                 Events.description := data !!! "description";
                 Events.date := data !!! "date";
                 Events.start_time := data !!! "start_time";
                 Events.end_time := data !!! "end_time";
                 Events.status := "active";
                 Events.created_at := now_isoformat env |} (events st) with
      | Ok es => ((201, json_message_event "Event created successfully" event_id), set_events st es)
      | IntegrityError msg => ((500, json_error msg), st)
      end
    end.

(** PUT /api/events/<event_id>. *)
Definition update_event (session : Session) (event_id : string) (data : gmap string string)
    (st : Store) : Response * Store :=
  if negb (is_admin session) then (unauthorized, st)
  else
    let update_fields :=
      omap (fun field => pair field <$> data !! field)
           ["name"; "description"; "date"; "start_time"; "end_time"; "status"] in
    if decide (update_fields = []) then ((400, json_error "No fields to update"), st)
    else
      ((200, json_message "Event updated successfully"),
       set_events st
         (update_where (fun e => Events.id e = event_id)
            (fun e => foldl set_event_column e update_fields) (events st))).

(** DELETE /api/events/<event_id>. *)
Definition delete_event (session : Session) (event_id : string) (st : Store) : Response * Store :=
  if negb (is_admin session) then (unauthorized, st)
  else
    ((200, json_message "Event deleted successfully"),
     {| users := users st;
        events := delete_where (fun e => Events.id e = event_id) (events st);
        attendance := delete_where (fun r => Attendance.event_id r = event_id) (attendance st) |}).

(** GET /api/attendance, [args] being the query string. *)
Definition get_attendance (args : gmap string string) (st : Store) : Response :=
  let records :=
    if truthy (args !! "event_id")
    then order_by_timestamp_desc
           (select (fun r => Attendance.event_id r = args !!! "event_id") (attendance st))
    else if truthy (args !! "student_id")
    then order_by_timestamp_desc
           (select (fun r => Attendance.student_id r = args !!! "student_id") (attendance st))
    else order_by_timestamp_desc (attendance st) in
  (200, json_attendance records).

(** POST /api/attendance. *)
Definition mark_attendance (session : Session) (data : gmap string string) (env : Env)
    (st : Store) : Response * Store :=
  if negb (is_admin session) then (unauthorized, st)
  else if negb (truthy (data !! "event_id")) || negb (truthy (data !! "student_id"))
  then ((400, json_error "Event ID and Student ID required"), st)
  else
    let event_id : string := data !!! "event_id" in
    let student_id : string := data !!! "student_id" in
    match fetchone (select (fun r => Attendance.event_id r = event_id ∧
                                     Attendance.student_id r = student_id) (attendance st)) with
    | Some _ => ((409, json_error "Attendance already marked"), st)
    | None =>
      match fetchone (select (fun u => Users.id u = student_id) (users st)) with
      | None => ((404, json_error "Student not found or not verified"), st)
      | Some student =>
        if decide (Users.status student ≠ "verified")
        then ((404, json_error "Student not found or not verified"), st)
        else
          let attendance_id := fresh_id "attendance" env in
          match attendance_insert
                  {| Attendance.id := attendance_id;
                     Attendance.event_id := event_id;
                     Attendance.student_id := student_id;
                     Attendance.student_name :=
                       Users.first_name student +:+ " " +:+ Users.last_name student;
                     Attendance.student_photo := Users.profile_photo student;
                     Attendance.timestamp := now_isoformat env |} (attendance st) with
          | Ok rs => ((201, json_message "Attendance marked successfully"), set_attendance st rs)
          | IntegrityError msg => ((500, json_error msg), st)
          end
      end
    end.

(** DELETE /api/attendance/<attendance_id>. *)
Definition delete_attendance (session : Session) (attendance_id : string) (st : Store)
    : Response * Store :=
  if negb (is_admin session) then (unauthorized, st)
  else
    ((200, json_message "Attendance record deleted"),
     set_attendance st (delete_where (fun r => Attendance.id r = attendance_id) (attendance st))).

(** ** The application as a transition system *)

(** The requests that can write to the store. *)
Inductive Request :=
  | Register (data : gmap string string) (env : Env)
  | UpdateUser (user_id : string) (data : gmap string string)
  | DeleteUser (user_id : string)
  | VerifyUser (user_id : string) (data : gmap string string)
  | UpdateUserRole (user_id : string) (data : gmap string string)
  | CreateEvent (data : gmap string string) (env : Env)
  | UpdateEvent (event_id : string) (data : gmap string string)
  | DeleteEvent (event_id : string)
  | MarkAttendance (data : gmap string string) (env : Env)
  | DeleteAttendance (attendance_id : string).

Definition handle (session : Session) (req : Request) (st : Store) : Response * Store :=
  match req with
  | Register data env => register data env st
  | UpdateUser user_id data => update_user session user_id data st
  | DeleteUser user_id => delete_user session user_id st
  | VerifyUser user_id data => verify_user session user_id data st
  | UpdateUserRole user_id data => update_user_role session user_id data st
  | CreateEvent data env => create_event session data env st
  | UpdateEvent event_id data => update_event session event_id data st
  | DeleteEvent event_id => delete_event session event_id st
  | MarkAttendance data env => mark_attendance session data env st
  | DeleteAttendance attendance_id => delete_attendance session attendance_id st
  end.

(** The stores the application can be in: a database file that did not
    exist is initialised at start-up, every request is served from the
    store its predecessor left, and the process may be restarted.  The
    session of a request is left arbitrary. *)
Inductive reachable : Store -> Prop :=
  | reachable_init env : reachable (init_db env empty_store)
  | reachable_restart env st : reachable st -> reachable (init_db env st)
  | reachable_request session req st : reachable st -> reachable (handle session req st).2.

(** ** Invariants of the store *)

(** Every stored email is its own lowercase. *)
Definition emails_lowercase (st : Store) : Prop :=
  Forall (fun u => lower (Users.email u) = Users.email u) (users st).

(** [users.id] is a key. *)
Definition user_ids_unique (st : Store) : Prop :=
  NoDup (Users.id <$> users st).

(** At most one attendance record per (event_id, student_id). *)
Definition attendance_pairs_unique (st : Store) : Prop :=
  NoDup ((fun r => (Attendance.event_id r, Attendance.student_id r)) <$> attendance st).

(** [attendance.id] is a key. *)
Definition attendance_ids_unique (st : Store) : Prop :=
  NoDup (Attendance.id <$> attendance st).

(** Every attendance record is of a stored, verified user. *)
Definition attendance_of_verified (st : Store) : Prop :=
  Forall (fun r => Exists (fun u => Users.id u = Attendance.student_id r ∧
                                    Users.status u = "verified") (users st))
         (attendance st).

Record store_ok (st : Store) : Prop := {
  ok_emails : emails_lowercase st;
  ok_user_ids : user_ids_unique st;
  ok_pairs : attendance_pairs_unique st;
  ok_verified : attendance_of_verified st;
  ok_attendance_ids : attendance_ids_unique st
}.

(** A user with this id is stored and verified. *)
Definition verified_student (st : Store) (student_id : string) : Prop :=
  Exists (fun u => Users.id u = student_id ∧ Users.status u = "verified") (users st).

(** The records of one (event, student) pair. *)
Definition records_of (event_id student_id : string) (st : Store) : list Attendance.row :=
  select (fun r => Attendance.event_id r = event_id ∧ Attendance.student_id r = student_id)
         (attendance st).

(** The row that a successful [mark_attendance] inserts. *)
Definition attendance_row (data : gmap string string) (env : Env) (student : Users.row)
    : Attendance.row :=
  {| Attendance.id := fresh_id "attendance" env;
     Attendance.event_id := data !!! "event_id";
     Attendance.student_id := data !!! "student_id";
     Attendance.student_name := Users.first_name student +:+ " " +:+ Users.last_name student;
     Attendance.student_photo := Users.profile_photo student;
     Attendance.timestamp := now_isoformat env |}.

(** ** A worked scenario

    The scenario of the specification: the database is created, a student
    registers, is verified by the admin and is marked present. *)
Module Scenario.
Definition env0 : Env :=
  {| now_timestamp := 1767225600; now_isoformat := "2026-01-01T00:00:00.000000";
     urandom4 := [x00; xff; x10; xab]%byte |}.
Definition env1 : Env :=
  {| now_timestamp := 1767225660; now_isoformat := "2026-01-01T00:01:00.000000";
     urandom4 := [x3c; x07; xd2; x9e]%byte |}.
Definition env2 : Env :=
  {| now_timestamp := 1767225720; now_isoformat := "2026-01-01T00:02:00.000000";
     urandom4 := [xa1; x5b; x00; x44]%byte |}.
Definition env3 : Env :=
  {| now_timestamp := 1767225780; now_isoformat := "2026-01-01T00:03:00.000000";
     urandom4 := [x9f; xe2; x71; x0c]%byte |}.

Definition admin : Session := {[ "user_id" := "admin_1767225600"; "role" := "admin" ]}.

Definition registration : gmap string string :=
  {[ "student_id" := "S1"; "first_name" := "A"; "last_name" := "B";
     "email" := "a@x.com"; "password" := "secret1" ]}.

Definition student : string := "student_1767225660_3c07d29e".
Definition mark_request : gmap string string :=
  {[ "event_id" := "event1"; "student_id" := student ]}.
Definition verify_request : gmap string string := {[ "qr_code" := "QR1" ]}.
Definition student_session : Session := {[ "user_id" := student; "role" := "student" ]}.

(** The fresh database, then the student registered, verified, marked. *)
Definition db0 : Store := init_db env0 empty_store.
Definition db1 : Store := (handle ∅ (Register registration env1) db0).2.
Definition db2 : Store := (handle admin (VerifyUser student verify_request) db1).2.
Definition db3 : Store := (handle admin (MarkAttendance mark_request env2) db2).2.
End Scenario.

(** ** The routes that read, and logout *)

(** The counters of [get_stats]. *)
Record stats := {
  total_students : nat;
  pending_students : nat;
  verified_students : nat;
  total_events : nat;
  total_attendance : nat
}.

(** The bodies of [check_auth], [get_users], [get_events] and
    [get_stats]; [json_authenticated None] is [{'authenticated': False}]. *)
Inductive ReadBody :=
  | read_error (msg : string)
  | json_users (users_list : list user_data)
  | json_events (events_list : list Events.row)
  | json_authenticated (user : option user_data)
  | json_stats (counts : stats).

(** [ORDER BY created_at DESC]. *)
Definition created_at_desc (u1 u2 : Users.row) : Prop :=
  String.le (Users.created_at u2) (Users.created_at u1).

#[global] Instance created_at_desc_dec : RelDecision created_at_desc.
Proof. intros u1 u2. unfold created_at_desc. apply _. Defined.

(** [ORDER BY date DESC, start_time DESC]: by date, and by start_time
    among the events of one date. *)
Definition date_start_time_desc (e1 e2 : Events.row) : Prop :=
  (Events.date e1 ≠ Events.date e2 ∧ String.le (Events.date e2) (Events.date e1)) ∨
  (Events.date e1 = Events.date e2 ∧
   String.le (Events.start_time e2) (Events.start_time e1)).

#[global] Instance date_start_time_desc_dec : RelDecision date_start_time_desc.
Proof. intros e1 e2. unfold date_start_time_desc. apply _. Defined.

(** POST /api/auth/logout: [session.clear()]. *)
Definition logout (session : Session) : Response * Session :=
  ((200, json_message "Logged out successfully"), ∅).

(** GET /api/auth/check. *)
Definition check_auth (session : Session) (st : Store) : nat * ReadBody :=
  match session !! "user_id" with
  | Some user_id =>
    match fetchone (select (fun u => Users.id u = user_id) (users st)) with
    | Some user => (200, json_authenticated (Some (user_data_of user false)))
    | None => (401, json_authenticated None)
    end
  | None => (401, json_authenticated None)
  end.

(** GET /api/users. *)
Definition get_users (session : Session) (st : Store) : nat * ReadBody :=
  if negb (is_admin session) then (403, read_error "Unauthorized")
  else
    (200, json_users ((fun user => user_data_of user true) <$>
                        order_by created_at_desc (users st))).

(** GET /api/events. *)
Definition get_events (st : Store) : nat * ReadBody :=
  (200, json_events (order_by date_start_time_desc (events st))).

(** GET /api/stats. *)
Definition get_stats (session : Session) (st : Store) : nat * ReadBody :=
  if negb (is_admin session) then (403, read_error "Unauthorized")
  else
    (200, json_stats
       {| total_students := length (select (fun u => Users.role u = "student") (users st));
          pending_students :=
            length (select (fun u => Users.role u = "student" ∧ Users.status u = "pending")
                           (users st));
          verified_students :=
            length (select (fun u => Users.role u = "student" ∧ Users.status u = "verified")
                           (users st));
          total_events := length (events st);
          total_attendance := length (attendance st) |}).

(** The row that a successful [register] inserts. *)
Definition registered_user (data : gmap string string) (env : Env) : Users.row :=
  {| Users.id := fresh_id "student" env;
     Users.student_id := Some (data !!! "student_id");
     Users.first_name := data !!! "first_name";
     Users.last_name := data !!! "last_name";
     Users.email := lower (data !!! "email");
     Users.password := data !!! "password";
     Users.role := "student"; Users.status := "pending";
     Users.profile_photo := None; Users.qr_code := None;
     Users.created_at := now_isoformat env |}.

(** The row that a successful [create_event] inserts. *)
Definition created_event (data : gmap string string) (env : Env) : Events.row :=
  {| Events.id := fresh_id "event" env;
     Events.name := data !!! "name";
     Events.description := data !!! "description";
     Events.date := data !!! "date";
     Events.start_time := data !!! "start_time";
     Events.end_time := data !!! "end_time";
     Events.status := "active";
     Events.created_at := now_isoformat env |}.

(** The row that [init_db] inserts. *)
Definition default_admin (env : Env) : Users.row :=
  {| Users.id := "admin_" +:+ pretty (now_timestamp env); Users.student_id := None;
     Users.first_name := "Admin"; Users.last_name := "User";
     Users.email := admin_email; Users.password := "hckthon2026";
     Users.role := "admin"; Users.status := "verified";
     Users.profile_photo := None; Users.qr_code := None;
     Users.created_at := now_isoformat env |}.

(** ** Further invariants of the store *)

(** [users.email] and [users.student_id] are UNIQUE; a NULL student_id is
    no value. *)
Definition user_emails_unique (st : Store) : Prop :=
  NoDup (Users.email <$> users st).

Definition student_ids_unique (st : Store) : Prop :=
  NoDup (omap Users.student_id (users st)).

(** The roles and statuses the routes write. *)
Definition roles_known (st : Store) : Prop :=
  Forall (fun u => Users.role u = "student" ∨ Users.role u = "admin") (users st).

Definition statuses_known (st : Store) : Prop :=
  Forall (fun u => Users.status u = "pending" ∨ Users.status u = "verified") (users st).

(** No attendance record has an empty event_id or student_id. *)
Definition attendance_ids_given (st : Store) : Prop :=
  Forall (fun r => Attendance.event_id r ≠ "" ∧ Attendance.student_id r ≠ "") (attendance st).

(** Every stored password has at least 6 characters. *)
Definition passwords_given (st : Store) : Prop :=
  Forall (fun u => 6 <= String.length (Users.password u)) (users st).

Record store_sound (st : Store) : Prop := {
  sound_emails : user_emails_unique st;
  sound_student_ids : student_ids_unique st;
  sound_roles : roles_known st;
  sound_statuses : statuses_known st;
  sound_attendance : attendance_ids_given st
}.

(** A second scenario: an event is created and a second student
    registers. *)
Module Campus.
Definition env4 : Env :=
  {| now_timestamp := 1767225840; now_isoformat := "2026-01-01T00:04:00.000000";
     urandom4 := [x11; x22; x33; x44]%byte |}.
Definition env5 : Env :=
  {| now_timestamp := 1767225900; now_isoformat := "2026-01-01T00:05:00.000000";
     urandom4 := [xde; xad; xbe; xef]%byte |}.

Definition event_request : gmap string string :=
  {[ "name" := "Kickoff"; "description" := "Opening session"; "date" := "2026-02-01";
     "start_time" := "09:00"; "end_time" := "10:00" ]}.

Definition registration2 : gmap string string :=
  {[ "student_id" := "S2"; "first_name" := "C"; "last_name" := "D";
     "email" := "C@Y.org"; "password" := "hunter22" ]}.

Definition credentials2 : gmap string string :=
  {[ "email" := "c@y.ORG"; "password" := "hunter22" ]}.

Definition student2 : string := "student_1767225900_deadbeef".

(** The row of the first student once verified. *)
Definition user1 : Users.row :=
  {| Users.id := Scenario.student; Users.student_id := Some "S1";
     Users.first_name := "A"; Users.last_name := "B";
     Users.email := "a@x.com"; Users.password := "secret1";
     Users.role := "student"; Users.status := "verified";
     Users.profile_photo := None; Users.qr_code := Some "QR1";
     Users.created_at := "2026-01-01T00:01:00.000000" |}.

(** The attendance record of the first student. *)
Definition record1 : Attendance.row :=
  {| Attendance.id := "attendance_1767225720_a15b0044";
     Attendance.event_id := "event1"; Attendance.student_id := Scenario.student;
     Attendance.student_name := "A B"; Attendance.student_photo := None;
     Attendance.timestamp := "2026-01-01T00:02:00.000000" |}.

(** The row of the second student once registered. *)
Definition user2 : Users.row :=
  {| Users.id := student2; Users.student_id := Some "S2";
     Users.first_name := "C"; Users.last_name := "D";
     Users.email := "c@y.org"; Users.password := "hunter22";
     Users.role := "student"; Users.status := "pending";
     Users.profile_photo := None; Users.qr_code := None;
     Users.created_at := "2026-01-01T00:05:00.000000" |}.

Definition db4 : Store := (handle Scenario.admin (CreateEvent event_request env4) Scenario.db3).2.
Definition db5 : Store := (handle ∅ (Register registration2 env5) db4).2.
End Campus.

(** ** Facts about text *)

Lemma lower_char_idemp c : lower_char (lower_char c) = lower_char c.
Proof. destruct c as [[] [] [] [] [] [] [] []]; reflexivity. Qed.

Lemma lower_idemp s : lower (lower s) = lower s.
Proof. induction s as [|c s IH]; simpl; [done|]. by rewrite lower_char_idemp, IH. Qed.

(** ** Facts about statements *)

Section order_by_facts.
Context {A : Type} (before : relation A) `{!RelDecision before}.

Lemma insert_sorted_Permutation x rows : insert_sorted before x rows ≡ₚ x :: rows.
Proof.
  induction rows as [|y rows IH]; simpl; [done|].
  case_decide; [done|]. rewrite IH. apply Permutation_swap.
Qed.

Lemma order_by_Permutation rows : order_by before rows ≡ₚ rows.
Proof.
  unfold order_by. induction rows as [|x rows IH]; simpl; [done|].
  by rewrite insert_sorted_Permutation, IH.
Qed.

Lemma insert_sorted_StronglySorted `{!Transitive before, !Total before} x rows :
  StronglySorted before rows → StronglySorted before (insert_sorted before x rows).
Proof.
  induction 1 as [|y rows Hsorted IH Hall]; simpl.
  - by repeat constructor.
  - case_decide as Hxy.
    + constructor; [by constructor|]. constructor; [done|].
      eapply Forall_impl; [exact Hall|]. intros z Hz. by etrans.
    + constructor; [done|]. rewrite insert_sorted_Permutation. constructor; [|done].
      by destruct (total before x y).
Qed.

Lemma order_by_StronglySorted `{!Transitive before, !Total before} rows :
  StronglySorted before (order_by before rows).
Proof.
  unfold order_by. induction rows as [|x rows IH]; simpl; [constructor|].
  by apply insert_sorted_StronglySorted.
Qed.
End order_by_facts.

Section sql_facts.
Context {A : Type} (P : A → Prop) `{!∀ r, Decision (P r)}.
Implicit Types (rows : list A) (r : A).

Lemma fetchone_select_None rows :
  fetchone (select P rows) = None ↔ Forall (λ r, ¬ P r) rows.
Proof.
  unfold fetchone, select. rewrite head_None, Forall_forall. split.
  - intros Hnil r Hr HP. by eapply filter_nil_not_elem_of.
  - intros Hno. destruct (filter P rows) as [|r l] eqn:Hf; [done|].
    assert (r ∈ filter P rows) as [HP Hr]%list_elem_of_filter by (rewrite Hf; left).
    by destruct (Hno r Hr).
Qed.

Lemma fetchone_select_Some rows r :
  fetchone (select P rows) = Some r → r ∈ rows ∧ P r.
Proof.
  unfold fetchone, select. intros Hhead%head_Some_elem_of.
  apply list_elem_of_filter in Hhead. tauto.
Qed.

Lemma fetchone_select_elem rows r :
  r ∈ rows → P r → is_Some (fetchone (select P rows)).
Proof.
  intros Hr HP. destruct (fetchone (select P rows)) eqn:Hf; [by eexists|].
  apply fetchone_select_None in Hf. rewrite Forall_forall in Hf. by destruct (Hf r Hr).
Qed.

Lemma delete_where_elem rows r : r ∈ delete_where P rows ↔ ¬ P r ∧ r ∈ rows.
Proof. unfold delete_where. by rewrite list_elem_of_filter. Qed.

Lemma delete_where_sublist rows : delete_where P rows `sublist_of` rows.
Proof. apply sublist_filter. Qed.

Lemma delete_where_Forall (Q : A → Prop) rows :
  Forall Q rows → Forall Q (delete_where P rows).
Proof.
  rewrite !Forall_forall. intros Hall r [_ Hr]%delete_where_elem. auto.
Qed.

Lemma delete_where_none rows : Forall (λ r, ¬ P r) rows → delete_where P rows = rows.
Proof.
  unfold delete_where. induction 1 as [|r rows Hr _ IH]; [done|].
  by rewrite filter_cons_True, IH.
Qed.

Lemma update_where_none (f : A → A) rows :
  Forall (λ r, ¬ P r) rows → update_where P f rows = rows.
Proof.
  unfold update_where. induction 1 as [|r rows Hr _ IH]; [done|].
  rewrite fmap_cons, IH. by rewrite decide_False.
Qed.

Lemma update_where_fmap {B} (g : A → B) (f : A → A) rows :
  (∀ r, g (f r) = g r) → g <$> update_where P f rows = g <$> rows.
Proof.
  intros Hg. unfold update_where. rewrite <- list_fmap_compose.
  apply list_fmap_ext. intros _ r _. simpl. by case_decide.
Qed.

Lemma update_where_Forall (Q : A → Prop) (f : A → A) rows :
  (∀ r, Q r → Q (f r)) → Forall Q rows → Forall Q (update_where P f rows).
Proof.
  intros Hf Hall. unfold update_where. rewrite Forall_fmap.
  eapply Forall_impl; [exact Hall|]. intros r Hr. simpl. case_decide; auto.
Qed.

Lemma update_where_Exists (Q : A → Prop) (f : A → A) rows :
  (∀ r, Q r → Q (f r)) → Exists Q rows → Exists Q (update_where P f rows).
Proof.
  intros Hf Hex. unfold update_where. rewrite Exists_fmap.
  eapply Exists_impl; [exact Hex|]. intros r Hr. simpl. case_decide; auto.
Qed.
End sql_facts.

Lemma users_insert_Ok u rows us :
  users_insert u rows = Ok us → us = (rows ++ [u])%list ∧ Users.id u ∉ Users.id <$> rows.
Proof. unfold users_insert. repeat case_decide; intros [= <-]. done. Qed.

Lemma attendance_insert_Ok r rows rs :
  attendance_insert r rows = Ok rs →
  rs = (rows ++ [r])%list ∧ Attendance.id r ∉ Attendance.id <$> rows.
Proof. unfold attendance_insert. case_decide; intros [= <-]. done. Qed.

Lemma attendance_insert_fresh r rows :
  Attendance.id r ∉ Attendance.id <$> rows → attendance_insert r rows = Ok (rows ++ [r])%list.
Proof. intros Hfresh. unfold attendance_insert. by rewrite decide_False. Qed.

(** *** Assignments of a dynamic UPDATE *)

Lemma set_user_column_id u a : Users.id (set_user_column u a) = Users.id u.
Proof. by destruct a. Qed.

Lemma assign_id assignments u :
  Users.id (foldl set_user_column u assignments) = Users.id u.
Proof.
  revert u. induction assignments as [|a l IH]; intros u; simpl; [done|].
  by rewrite IH, set_user_column_id.
Qed.

Lemma assign_status assignments u :
  "status" ∉ assignments.*1 →
  Users.status (foldl set_user_column u assignments) = Users.status u.
Proof.
  revert u. induction assignments as [|[c v] l IH]; intros u Hno; simpl; [done|].
  rewrite fmap_cons, not_elem_of_cons in Hno. destruct Hno as [Hc Hl].
  rewrite IH by done. simpl. by rewrite decide_False.
Qed.

Lemma assign_email_lowercase assignments u :
  Forall (λ a, a.1 = "email" → lower a.2 = a.2) assignments →
  lower (Users.email u) = Users.email u →
  lower (Users.email (foldl set_user_column u assignments))
  = Users.email (foldl set_user_column u assignments).
Proof.
  intros Hall. revert u. induction Hall as [|[c v] l Ha _ IH]; intros u Hu; simpl; [done|].
  apply IH. simpl. case_decide; auto.
Qed.

(** The columns [update_user] may assign, and the email it assigns. *)
Lemma update_user_fields_spec data :
  Forall (λ a, a.1 ∈ ["first_name"; "last_name"; "email"; "password"; "profile_photo"] ∧
               (a.1 = "email" → lower a.2 = a.2))
         (update_user_fields data).
Proof.
  unfold update_user_fields.
  destruct (data !! "first_name"), (data !! "last_name"), (data !! "email"),
    (data !! "password"), (data !! "profile_photo");
    repeat case_decide; simpl;
    repeat (apply Forall_cons; split;
            [split; [set_solver|simpl; intros; by rewrite ?lower_idemp]|]);
    by apply Forall_nil.
Qed.

Lemma update_user_fields_no_status data : "status" ∉ (update_user_fields data).*1.
Proof.
  intros (a & Ha & Hin)%list_elem_of_fmap.
  pose proof (update_user_fields_spec data) as Hspec.
  rewrite Forall_forall in Hspec. destruct (Hspec a Hin) as [Hcol _].
  rewrite <- Ha in Hcol. set_solver.
Qed.

(** ** The invariants hold in every reachable store *)

Lemma store_ok_set_events st es : store_ok st → store_ok (set_events st es).
Proof. by intros []. Qed.

(** An UPDATE of users that keeps [id], keeps emails lowercase and never
    takes the status [verified] away. *)
Lemma store_ok_update_users (P : Users.row → Prop) `{!∀ u, Decision (P u)} f st :
  (∀ u, Users.id (f u) = Users.id u) →
  (∀ u, lower (Users.email u) = Users.email u → lower (Users.email (f u)) = Users.email (f u)) →
  (∀ u, Users.status u = "verified" → Users.status (f u) = "verified") →
  store_ok st → store_ok (set_users st (update_where P f (users st))).
Proof.
  intros Hid Hemail Hstatus [Hlow Hids Hpairs Hver Haids]. split.
  - by apply update_where_Forall.
  - unfold user_ids_unique. simpl. by rewrite update_where_fmap.
  - done.
  - unfold attendance_of_verified in *. simpl.
    eapply Forall_impl; [exact Hver|]. intros r Hr.
    apply update_where_Exists; [|done].
    intros u [Hu Hs]. rewrite Hid. auto.
  - done.
Qed.

(** An INSERT into users of a row with a new [id] and a lowercase email. *)
Lemma store_ok_insert_user u st :
  Users.id u ∉ Users.id <$> users st →
  lower (Users.email u) = Users.email u →
  store_ok st → store_ok (set_users st (users st ++ [u])).
Proof.
  intros Hfresh Hemail [Hlow Hids Hpairs Hver Haids]. split.
  - apply Forall_app. split; [done|]. by apply Forall_singleton.
  - unfold user_ids_unique. simpl. rewrite fmap_app. apply NoDup_app.
    split_and!; [done| |apply NoDup_singleton].
    intros x Hx ->%list_elem_of_singleton. done.
  - done.
  - unfold attendance_of_verified in *. simpl.
    eapply Forall_impl; [exact Hver|]. intros r Hr.
    apply Exists_app. by left.
  - done.
Qed.

Lemma init_db_ok env st : store_ok st → store_ok (init_db env st).
Proof.
  intros Hok. unfold init_db.
  destruct (fetchone _); [done|].
  destruct (users_insert _ _) as [us|] eqn:Hins; [|done].
  apply users_insert_Ok in Hins as [-> Hfresh]. by apply store_ok_insert_user.
Qed.

Lemma register_ok data env st : store_ok st → store_ok (register data env st).2.
Proof.
  intros Hok. unfold register.
  destruct (find _ _); [done|]. case_decide; [done|].
  destruct (fetchone _); [done|]. destruct (fetchone _); [done|].
  destruct (users_insert _ _) as [us|] eqn:Hins; [|done].
  apply users_insert_Ok in Hins as [-> Hfresh].
  apply store_ok_insert_user; [done| |done]. simpl. apply lower_idemp.
Qed.

Lemma update_user_ok session user_id data st :
  store_ok st → store_ok (update_user session user_id data st).2.
Proof.
  intros Hok. unfold update_user, users_update.
  destruct (not_self_nor_admin _ _); [done|].
  case_decide; [done|]. case_decide; [done|]. simpl.
  apply store_ok_update_users; [| | |done].
  - intros u. apply assign_id.
  - intros u. apply assign_email_lowercase.
    eapply Forall_impl; [apply update_user_fields_spec|]. by intros a [_ Ha].
  - intros u Hu. rewrite assign_status; [done|]. apply update_user_fields_no_status.
Qed.

Lemma verify_user_ok session user_id data st :
  store_ok st → store_ok (verify_user session user_id data st).2.
Proof.
  intros Hok. unfold verify_user.
  destruct (negb (is_admin _)); [done|]. destruct (negb (truthy _)); [done|]. simpl.
  by apply store_ok_update_users.
Qed.

Lemma update_user_role_ok session user_id data st :
  store_ok st → store_ok (update_user_role session user_id data st).2.
Proof.
  intros Hok. unfold update_user_role.
  destruct (negb (is_admin _)); [done|]. case_decide; [|done]. simpl.
  by apply store_ok_update_users.
Qed.

Lemma delete_user_ok session user_id st :
  store_ok st → store_ok (delete_user session user_id st).2.
Proof.
  intros [Hlow Hids Hpairs Hver Haids]. unfold delete_user.
  destruct (negb (is_admin _)); [done|]. split; simpl.
  - by apply delete_where_Forall.
  - unfold user_ids_unique. simpl.
    eapply sublist_NoDup; [exact Hids|apply fmap_sublist, delete_where_sublist].
  - unfold attendance_pairs_unique. simpl.
    eapply sublist_NoDup; [exact Hpairs|apply fmap_sublist, delete_where_sublist].
  - unfold attendance_of_verified in *. simpl.
    apply Forall_forall. intros r [Hne Hr]%delete_where_elem.
    rewrite Forall_forall in Hver. specialize (Hver r Hr).
    apply Exists_exists in Hver as (u & Hu & Hid & Hs).
    apply Exists_exists. exists u. split_and!; [|done..].
    apply delete_where_elem. split; [congruence|done].
  - unfold attendance_ids_unique. simpl.
    eapply sublist_NoDup; [exact Haids|apply fmap_sublist, delete_where_sublist].
Qed.

Lemma create_event_ok session data env st :
  store_ok st → store_ok (create_event session data env st).2.
Proof.
  intros Hok. unfold create_event.
  destruct (negb (is_admin _)); [done|]. destruct (find _ _); [done|].
  destruct (events_insert _ _); [|done]. by apply store_ok_set_events.
Qed.

Lemma update_event_ok session event_id data st :
  store_ok st → store_ok (update_event session event_id data st).2.
Proof.
  intros Hok. unfold update_event.
  destruct (negb (is_admin _)); [done|]. case_decide; [done|].
  by apply store_ok_set_events.
Qed.

(** A DELETE on attendance, whatever becomes of the events. *)
Lemma store_ok_delete_attendance (P : Attendance.row → Prop) `{!∀ r, Decision (P r)} es st :
  store_ok st →
  store_ok {| users := users st; events := es;
              attendance := delete_where P (attendance st) |}.
Proof.
  intros [Hlow Hids Hpairs Hver Haids]. split; [done..| | |].
  - unfold attendance_pairs_unique. simpl.
    eapply sublist_NoDup; [exact Hpairs|apply fmap_sublist, delete_where_sublist].
  - by apply delete_where_Forall.
  - unfold attendance_ids_unique. simpl.
    eapply sublist_NoDup; [exact Haids|apply fmap_sublist, delete_where_sublist].
Qed.

Lemma delete_event_ok session event_id st :
  store_ok st → store_ok (delete_event session event_id st).2.
Proof.
  intros Hok. unfold delete_event.
  destruct (negb (is_admin _)); [done|]. by apply store_ok_delete_attendance.
Qed.

Lemma delete_attendance_ok session attendance_id st :
  store_ok st → store_ok (delete_attendance session attendance_id st).2.
Proof.
  intros Hok. unfold delete_attendance.
  destruct (negb (is_admin _)); [done|].
  by apply (store_ok_delete_attendance _ (events st)).
Qed.

Lemma mark_attendance_ok session data env st :
  store_ok st → store_ok (mark_attendance session data env st).2.
Proof.
  intros Hok. unfold mark_attendance.
  destruct (negb (is_admin _)); [done|]. destruct (_ || _); [done|].
  destruct (fetchone _) eqn:Hmarked; [done|].
  destruct (fetchone (select _ (users st))) as [student|] eqn:Hstudent; [|done].
  case_decide as Hstatus; [done|].
  destruct (attendance_insert _ _) as [rs|] eqn:Hins; [|done].
  apply attendance_insert_Ok in Hins as [-> Hfresh].
  apply fetchone_select_None in Hmarked.
  apply fetchone_select_Some in Hstudent as [Hin Hid].
  destruct Hok as [Hlow Hids Hpairs Hver Haids]. split; [done..| | |].
  - unfold attendance_pairs_unique. simpl. rewrite fmap_app. apply NoDup_app.
    split_and!; [done| |apply NoDup_singleton].
    intros p (r & -> & Hr)%list_elem_of_fmap Hp%list_elem_of_singleton.
    rewrite Forall_forall in Hmarked. apply (Hmarked r Hr). by inversion Hp.
  - unfold attendance_of_verified. simpl. apply Forall_app. split; [done|].
    apply Forall_singleton. simpl. apply Exists_exists. by exists student.
  - unfold attendance_ids_unique. simpl. rewrite fmap_app. apply NoDup_app.
    split_and!; [done| |apply NoDup_singleton].
    intros x Hx ->%list_elem_of_singleton. done.
Qed.

Lemma handle_ok session req st : store_ok st → store_ok (handle session req st).2.
Proof.
  destruct req; simpl;
    auto using register_ok, update_user_ok, delete_user_ok, verify_user_ok,
      update_user_role_ok, create_event_ok, update_event_ok, delete_event_ok,
      mark_attendance_ok, delete_attendance_ok.
Qed.

Lemma empty_store_ok : store_ok empty_store.
Proof.
  split; [apply Forall_nil_2|apply NoDup_nil_2|apply NoDup_nil_2|apply Forall_nil_2|
          apply NoDup_nil_2].
Qed.

Lemma reachable_ok st : reachable st → store_ok st.
Proof.
  induction 1 as [env|env st _ IH|session req st _ IH].
  - apply init_db_ok, empty_store_ok.
  - by apply init_db_ok.
  - by apply handle_ok.
Qed.

(** ** The worked scenario *)

Lemma db0_reachable : reachable Scenario.db0.
Proof. apply reachable_init. Qed.

Lemma db1_reachable : reachable Scenario.db1.
Proof. apply reachable_request, db0_reachable. Qed.

Lemma db2_reachable : reachable Scenario.db2.
Proof. apply reachable_request, db1_reachable. Qed.

Lemma db3_reachable : reachable Scenario.db3.
Proof. apply reachable_request, db2_reachable. Qed.

Example scenario_register :
  (register Scenario.registration Scenario.env1 Scenario.db0).1
  = (201, json_message "Registration successful. Awaiting admin verification.").
Proof. vm_compute. reflexivity. Qed.

Example scenario_login :
  ∃ ud, (login ∅ {[ "email" := "a@x.com"; "password" := "secret1" ]} Scenario.db1).1
        = (200, json_user ud) ∧ ud_status ud = "pending".
Proof. eexists. vm_compute. done. Qed.

Example scenario_mark_unverified :
  (mark_attendance Scenario.admin Scenario.mark_request Scenario.env2 Scenario.db1).1
  = (404, json_error "Student not found or not verified").
Proof. vm_compute. reflexivity. Qed.

Example scenario_mark :
  (mark_attendance Scenario.admin Scenario.mark_request Scenario.env2 Scenario.db2).1
  = (201, json_message "Attendance marked successfully").
Proof. vm_compute. reflexivity. Qed.

Example scenario_mark_again :
  (mark_attendance Scenario.admin Scenario.mark_request Scenario.env3 Scenario.db3).1
  = (409, json_error "Attendance already marked").
Proof. vm_compute. reflexivity. Qed.

(** ** Marking attendance *)

(** In a table where [key] is a key, the rows holding the key of a stored
    row are that row alone. *)
Lemma filter_key_NoDup {A B} `{EqDecision B} (key : A → B) (rows : list A) (x : A) :
  NoDup (key <$> rows) → x ∈ rows → filter (λ y, key y = key x) rows = [x].
Proof.
  induction rows as [|a rows IH]; intros Hnodup Hx; [by apply elem_of_nil in Hx|].
  rewrite fmap_cons in Hnodup. apply NoDup_cons in Hnodup as [Ha Hnodup].
  apply elem_of_cons in Hx as [->|Hx].
  - rewrite filter_cons_True by done. f_equal.
    destruct (filter _ rows) as [|y l] eqn:Hf; [done|].
    assert (y ∈ filter (λ y, key y = key a) rows) as [Hy Hin]%list_elem_of_filter
      by (rewrite Hf; left).
    destruct Ha. rewrite <- Hy. by apply list_elem_of_fmap_2.
  - rewrite filter_cons_False; [by apply IH|].
    intros Heq. destruct Ha. rewrite Heq. by apply list_elem_of_fmap_2.
Qed.

Lemma fetchone_user_by_id st u :
  user_ids_unique st → u ∈ users st →
  fetchone (select (λ v, Users.id v = Users.id u) (users st)) = Some u.
Proof.
  intros Hids Hu. unfold fetchone, select.
  by rewrite (filter_key_NoDup Users.id (users st) u Hids Hu).
Qed.

(** Where [users.id] is a key, [verified_student] says that the lookup
    by id finds a user and that this user is verified. *)
Lemma verified_student_fetchone st student_id :
  user_ids_unique st →
  verified_student st student_id ↔
  ∃ u, fetchone (select (λ u, Users.id u = student_id) (users st)) = Some u ∧
       Users.status u = "verified".
Proof.
  intros Hids. unfold verified_student. rewrite Exists_exists. split.
  - intros (u & Hu & <- & Hstatus). exists u. by rewrite fetchone_user_by_id.
  - intros (u & [Hu Hid]%fetchone_select_Some & Hstatus). by exists u.
Qed.

(** C1, as amended.  For every call to mark(event_id, student_id) by an
    admin, on a store the application can reach, where student_id does not
    resolve to a stored User whose status is 'verified': no
    AttendanceRecord is added (the store is left as it was), and when both
    ids are non-empty the call fails with NotFoundError (404). *)
Theorem mark_attendance_unverified session data env st :
  reachable st →
  is_admin session = true →
  ¬ verified_student st (data !!! "student_id") →
  (mark_attendance session data env st).2 = st ∧
  (truthy (data !! "event_id") = true → truthy (data !! "student_id") = true →
   (mark_attendance session data env st).1
   = (404, json_error "Student not found or not verified")).
Proof.
  intros Hreach Hadmin Hnot. apply reachable_ok, ok_verified in Hreach as Hver.
  unfold mark_attendance. rewrite Hadmin. simpl.
  destruct (truthy (data !! "event_id")), (truthy (data !! "student_id")); simpl;
    try (split; [done|intros; done]).
  destruct (fetchone (select _ (attendance st))) as [r|] eqn:Hmarked.
  { apply fetchone_select_Some in Hmarked as [Hr [_ Hs]].
    unfold attendance_of_verified in Hver. rewrite Forall_forall in Hver.
    specialize (Hver r Hr). rewrite Hs in Hver. by destruct Hnot. }
  destruct (fetchone (select _ (users st))) as [student|] eqn:Hstudent; [|done].
  apply fetchone_select_Some in Hstudent as [Hin Hid].
  case_decide as Hstatus; [done|]. destruct Hnot.
  apply Exists_exists. by exists student.
Qed.

Lemma mark_attendance_unverified_witness :
  (mark_attendance Scenario.admin Scenario.mark_request Scenario.env2 Scenario.db1).2
  = Scenario.db1 ∧
  (mark_attendance Scenario.admin Scenario.mark_request Scenario.env2 Scenario.db1).1
  = (404, json_error "Student not found or not verified").
Proof.
  assert (¬ verified_student Scenario.db1 (Scenario.mark_request !!! "student_id")) as Hnot.
  { unfold verified_student. apply (bool_decide_unpack _). vm_compute. exact I. }
  destruct (mark_attendance_unverified Scenario.admin Scenario.mark_request Scenario.env2
              Scenario.db1 db1_reachable eq_refl Hnot) as [Hstore Hcode].
  split; [exact Hstore|]. apply Hcode; reflexivity.
Defined.

(** C1, as stated, fails: the student is stored with status 'pending' (or
    not stored at all), the caller is an admin, and the call is answered
    with 400 because event_id is empty. *)
Lemma mark_attendance_empty_event_id :
  is_admin Scenario.admin = true ∧
  (∃ u, fetchone (select (λ u, Users.id u = Scenario.student) (users Scenario.db1)) = Some u ∧
        Users.status u = "pending") ∧
  (mark_attendance Scenario.admin {[ "event_id" := ""; "student_id" := Scenario.student ]}
     Scenario.env2 Scenario.db1).1
  = (400, json_error "Event ID and Student ID required") ∧
  fetchone (select (λ u, Users.id u = "nobody") (users Scenario.db1)) = None ∧
  (mark_attendance Scenario.admin {[ "student_id" := "nobody" ]} Scenario.env2 Scenario.db1).1
  = (400, json_error "Event ID and Student ID required").
Proof. split_and!; [done|eexists; by vm_compute|by vm_compute..]. Qed.



Lemma mark_attendance_created session data env st :
  store_ok st →
  is_admin session = true →
  truthy (data !! "event_id") = true → truthy (data !! "student_id") = true →
  records_of (data !!! "event_id") (data !!! "student_id") st = [] →
  verified_student st (data !!! "student_id") →
  fresh_id "attendance" env ∉ Attendance.id <$> attendance st →
  ∃ student,
    student ∈ users st ∧ Users.id student = data !!! "student_id" ∧
    mark_attendance session data env st
    = ((201, json_message "Attendance marked successfully"),
       set_attendance st (attendance st ++ [attendance_row data env student])).
Proof.
  intros Hok Hadmin He Hs Hrec Hver Hfresh.
  apply Exists_exists in Hver as (student & Hin & Hid & Hstatus).
  exists student. split_and!; [done..|].
  unfold mark_attendance. rewrite Hadmin, He, Hs. simpl.
  fold (records_of (data !!! "event_id") (data !!! "student_id") st). rewrite Hrec. simpl.
  rewrite <- Hid, fetchone_user_by_id by (done || apply Hok).
  rewrite decide_False by (by intros []).
  rewrite attendance_insert_fresh by done.
  unfold attendance_row. by rewrite Hid.
Qed.




(** ** Verifying a user *)

Section update_where_facts.
Context {A : Type} (P : A → Prop) `{!∀ r, Decision (P r)} (f : A → A).
Hypothesis P_f : ∀ r, P (f r) ↔ P r.

Lemma fetchone_update_where rows :
  fetchone (select P (update_where P f rows)) = f <$> fetchone (select P rows).
Proof.
  unfold fetchone, select, update_where.
  induction rows as [|r rows IH]; [done|]. rewrite fmap_cons.
  destruct (decide (P r)) as [Hr|Hr].
  - rewrite !filter_cons_True by (done || by apply P_f). done.
  - by rewrite !filter_cons_False.
Qed.

Lemma select_others_update_where rows :
  select (λ r, ¬ P r) (update_where P f rows) = select (λ r, ¬ P r) rows.
Proof.
  unfold select, update_where.
  induction rows as [|r rows IH]; [done|]. rewrite fmap_cons.
  destruct (decide (P r)) as [Hr|Hr].
  - rewrite !filter_cons_False by (rewrite ?P_f; tauto). done.
  - rewrite !filter_cons_True by done. by rewrite IH.
Qed.
End update_where_facts.

Lemma verify_user_admin session user_id data st :
  is_admin session = true → truthy (data !! "qr_code") = true →
  verify_user session user_id data st
  = ((200, json_message "User verified successfully"),
     set_users st
       (update_where (λ u, Users.id u = user_id)
          (λ u, foldl set_user_column u [("status", "verified"); ("qr_code", data !!! "qr_code")])
          (users st))).
Proof. intros Hadmin Hqr. unfold verify_user. by rewrite Hadmin, Hqr. Qed.

Lemma set_users_same st : set_users st (users st) = st.
Proof. by destruct st. Qed.

(** C3, as amended.  For every call to verify(user_id, qr_code) by an
    admin with a non-empty qr_code the call succeeds (200).  If user_id
    does not resolve to a stored User the store is left as it was; if it
    resolves, that User gets status 'verified' and the given qr_code, all
    its other columns, the other users, the events and the attendance
    records staying as they were. *)
Theorem verify_user_spec session user_id data st :
  is_admin session = true →
  truthy (data !! "qr_code") = true →
  ∃ st',
    verify_user session user_id data st
    = ((200, json_message "User verified successfully"), st') ∧
    events st' = events st ∧ attendance st' = attendance st ∧
    select (λ u, Users.id u ≠ user_id) (users st')
    = select (λ u, Users.id u ≠ user_id) (users st) ∧
    (fetchone (select (λ u, Users.id u = user_id) (users st)) = None → st' = st) ∧
    (∀ u, fetchone (select (λ u, Users.id u = user_id) (users st)) = Some u →
          fetchone (select (λ u, Users.id u = user_id) (users st'))
          = Some {| Users.id := Users.id u;
                    Users.student_id := Users.student_id u;
                    Users.first_name := Users.first_name u;
                    Users.last_name := Users.last_name u;
                    Users.email := Users.email u;
                    Users.password := Users.password u;
                    Users.role := Users.role u;
                    Users.status := "verified";
                    Users.profile_photo := Users.profile_photo u;
                    Users.qr_code := Some (data !!! "qr_code");
                    Users.created_at := Users.created_at u |}).
Proof.
  intros Hadmin Hqr. eexists. split; [by apply verify_user_admin|].
  split_and!; [done..| | |].
  - by apply select_others_update_where.
  - intros Hnone%fetchone_select_None.
    rewrite update_where_none by done. apply set_users_same.
  - intros u Hu. simpl. rewrite fetchone_update_where by done. by rewrite Hu.
Qed.

Lemma verify_user_spec_witness :
  ∃ st',
    verify_user Scenario.admin Scenario.student Scenario.verify_request Scenario.db1
    = ((200, json_message "User verified successfully"), st') ∧
    ∃ u, fetchone (select (λ u, Users.id u = Scenario.student) (users st')) = Some u ∧
         Users.status u = "verified" ∧ Users.qr_code u = Some "QR1" ∧
         Users.email u = "a@x.com".
Proof.
  destruct (verify_user_spec Scenario.admin Scenario.student Scenario.verify_request
              Scenario.db1 eq_refl eq_refl) as (st' & Hcall & _ & _ & _ & _ & Hsome).
  exists st'. split; [exact Hcall|].
  eexists. split; [apply Hsome; by vm_compute|]. by vm_compute.
Defined.

(** C3, as stated, fails: no stored user has the id, and the call is
    answered with 200, not 404. *)
Lemma verify_user_unknown_id :
  is_admin Scenario.admin = true ∧
  fetchone (select (λ u, Users.id u = "nobody") (users Scenario.db1)) = None ∧
  verify_user Scenario.admin "nobody" Scenario.verify_request Scenario.db1
  = ((200, json_message "User verified successfully"), Scenario.db1).
Proof. split_and!; by vm_compute. Qed.

(** C6.  For every stored user_id and non-empty code, verify(user_id,
    code) by an admin succeeds, and a following get(user_id), by the user
    or by an admin, returns the user's dictionary with status 'verified'
    and qr_code = code. *)
Theorem verify_then_get session viewer user_id data st :
  is_admin session = true →
  truthy (data !! "qr_code") = true →
  user_id ∈ Users.id <$> users st →
  not_self_nor_admin viewer user_id = false →
  (verify_user session user_id data st).1 = (200, json_message "User verified successfully") ∧
  ∃ ud, get_user viewer user_id (verify_user session user_id data st).2 = (200, json_user ud) ∧
        ud_id ud = user_id ∧ ud_status ud = "verified" ∧
        ud_qr_code ud = Some (data !!! "qr_code").
Proof.
  intros Hadmin Hqr (u & Hid & Hu)%list_elem_of_fmap Hviewer.
  rewrite verify_user_admin by done. split; [done|]. simpl.
  destruct (fetchone_select_elem (λ v, Users.id v = user_id) (users st) u) as [u0 Hu0];
    [done..|].
  unfold get_user. rewrite Hviewer. simpl.
  rewrite fetchone_update_where, Hu0 by done. simpl.
  eexists. split; [done|]. simpl.
  by apply fetchone_select_Some in Hu0 as [_ ->].
Qed.

Lemma verify_then_get_witness :
  (verify_user Scenario.admin Scenario.student Scenario.verify_request Scenario.db1).1
  = (200, json_message "User verified successfully") ∧
  ∃ ud, get_user Scenario.student_session Scenario.student
          (verify_user Scenario.admin Scenario.student Scenario.verify_request Scenario.db1).2
        = (200, json_user ud) ∧
        ud_id ud = Scenario.student ∧ ud_status ud = "verified" ∧
        ud_qr_code ud = Some "QR1".
Proof.
  apply (verify_then_get Scenario.admin Scenario.student_session
           Scenario.student Scenario.verify_request Scenario.db1); [reflexivity..| |reflexivity].
  apply (bool_decide_unpack _). vm_compute. exact I.
Defined.

(** ** Deleting *)

Section delete_where_facts.
Context {A : Type} (P : A → Prop) `{!∀ r, Decision (P r)}.

Lemma delete_where_gone rows : Forall (λ r, ¬ P r) (delete_where P rows).
Proof. apply Forall_forall. by intros r [Hr _]%delete_where_elem. Qed.

Lemma delete_where_others rows :
  select (λ r, ¬ P r) (delete_where P rows) = select (λ r, ¬ P r) rows.
Proof.
  unfold select, delete_where. rewrite list_filter_filter.
  apply list_filter_iff. tauto.
Qed.
End delete_where_facts.

(** C4.  Deleting an Event (as admin) removes the event and every
    AttendanceRecord whose event_id is the event's; deleting a User (as
    admin) removes the user and every AttendanceRecord whose student_id is
    the user's id.  The records of other events, respectively of other
    users, stay, in their order; the other tables are not touched. *)
Theorem cascade_delete session st :
  is_admin session = true →
  (∀ event_id,
     let st' := (delete_event session event_id st).2 in
     (delete_event session event_id st).1 = (200, json_message "Event deleted successfully") ∧
     Forall (λ r, Attendance.event_id r ≠ event_id) (attendance st') ∧
     (∀ r, r ∈ attendance st' ↔ r ∈ attendance st ∧ Attendance.event_id r ≠ event_id) ∧
     select (λ r, Attendance.event_id r ≠ event_id) (attendance st')
     = select (λ r, Attendance.event_id r ≠ event_id) (attendance st) ∧
     Forall (λ e, Events.id e ≠ event_id) (events st') ∧
     users st' = users st) ∧
  (∀ user_id,
     let st' := (delete_user session user_id st).2 in
     (delete_user session user_id st).1 = (200, json_message "User deleted successfully") ∧
     Forall (λ r, Attendance.student_id r ≠ user_id) (attendance st') ∧
     (∀ r, r ∈ attendance st' ↔ r ∈ attendance st ∧ Attendance.student_id r ≠ user_id) ∧
     select (λ r, Attendance.student_id r ≠ user_id) (attendance st')
     = select (λ r, Attendance.student_id r ≠ user_id) (attendance st) ∧
     Forall (λ u, Users.id u ≠ user_id) (users st') ∧
     events st' = events st).
Proof.
  intros Hadmin. split.
  - intros event_id. unfold delete_event. rewrite Hadmin. simpl.
    split_and!; [done|apply delete_where_gone| |apply delete_where_others|
                 apply delete_where_gone|done].
    intros r. rewrite delete_where_elem. tauto.
  - intros user_id. unfold delete_user. rewrite Hadmin. simpl.
    split_and!; [done|apply delete_where_gone| |apply delete_where_others|
                 apply delete_where_gone|done].
    intros r. rewrite delete_where_elem. tauto.
Qed.

(** Deleting by a key removes one row when the key is stored. *)
Lemma delete_where_key_length {A B} `{EqDecision B} (key : A → B) (rows : list A) (k : B) :
  NoDup (key <$> rows) → k ∈ key <$> rows →
  length rows = S (length (delete_where (λ r, key r = k) rows)).
Proof.
  intros Hnodup (x & -> & Hx)%list_elem_of_fmap.
  rewrite <- (Permutation_length (filter_app_complement (λ r, key r = key x) rows)).
  rewrite length_app, (filter_key_NoDup key rows x) by done. done.
Qed.

(** C8.  An admin call to unmark(attendance_id) succeeds (200) whether or
    not a record with that id exists.  If none exists the store is left
    as it was; in any case the records with that id, and only they, are
    removed, which in a store the application can reach is the one
    record with that id. *)
Theorem delete_attendance_permissive session attendance_id st :
  is_admin session = true →
  let st' := (delete_attendance session attendance_id st).2 in
  (delete_attendance session attendance_id st).1 = (200, json_message "Attendance record deleted") ∧
  (attendance_id ∉ Attendance.id <$> attendance st → st' = st) ∧
  Forall (λ r, Attendance.id r ≠ attendance_id) (attendance st') ∧
  (∀ r, r ∈ attendance st' ↔ r ∈ attendance st ∧ Attendance.id r ≠ attendance_id) ∧
  select (λ r, Attendance.id r ≠ attendance_id) (attendance st')
  = select (λ r, Attendance.id r ≠ attendance_id) (attendance st) ∧
  (reachable st → attendance_id ∈ Attendance.id <$> attendance st →
   length (attendance st) = S (length (attendance st'))) ∧
  users st' = users st ∧ events st' = events st.
Proof.
  intros Hadmin. unfold delete_attendance. rewrite Hadmin. simpl.
  split_and!; [done| |apply delete_where_gone| |apply delete_where_others| |done..].
  - intros Habsent. rewrite delete_where_none; [by destruct st|].
    apply Forall_forall. intros r Hr Hid. destruct Habsent.
    rewrite <- Hid. by apply list_elem_of_fmap_2.
  - intros r. rewrite delete_where_elem. tauto.
  - intros Hreach%reachable_ok%ok_attendance_ids Hstored.
    by apply delete_where_key_length.
Qed.

Lemma cascade_delete_witness :
  Forall (λ r, Attendance.event_id r ≠ "event1")
         (attendance (delete_event Scenario.admin "event1" Scenario.db3).2) ∧
  users (delete_event Scenario.admin "event1" Scenario.db3).2 = users Scenario.db3 ∧
  Forall (λ r, Attendance.student_id r ≠ Scenario.student)
         (attendance (delete_user Scenario.admin Scenario.student Scenario.db3).2) ∧
  Forall (λ u, Users.id u ≠ Scenario.student)
         (users (delete_user Scenario.admin Scenario.student Scenario.db3).2).
Proof.
  destruct (cascade_delete Scenario.admin Scenario.db3 eq_refl) as [Hevent Huser].
  destruct (Hevent "event1") as (_ & Hgone & _ & _ & _ & Husers).
  destruct (Huser Scenario.student) as (_ & Hgone' & _ & _ & Hdeleted & _).
  split_and!; [exact Hgone|exact Husers|exact Hgone'|exact Hdeleted].
Defined.

Lemma delete_attendance_permissive_witness :
  (delete_attendance Scenario.admin "attendance_0_00000000" Scenario.db3).1
  = (200, json_message "Attendance record deleted") ∧
  (delete_attendance Scenario.admin "attendance_0_00000000" Scenario.db3).2 = Scenario.db3 ∧
  length (attendance Scenario.db3)
  = S (length (attendance
         (delete_attendance Scenario.admin "attendance_1767225720_a15b0044" Scenario.db3).2)).
Proof.
  destruct (delete_attendance_permissive Scenario.admin "attendance_0_00000000" Scenario.db3
              eq_refl) as (Hcode & Hsame & _).
  destruct (delete_attendance_permissive Scenario.admin "attendance_1767225720_a15b0044"
              Scenario.db3 eq_refl) as (_ & _ & _ & _ & _ & Hone & _).
  split_and!; [exact Hcode| |].
  - apply Hsame. apply (bool_decide_unpack _). vm_compute. exact I.
  - apply Hone; [exact db3_reachable|]. apply (bool_decide_unpack _). vm_compute. exact I.
Defined.

Example delete_attendance_stored :
  attendance (delete_attendance Scenario.admin "attendance_1767225720_a15b0044" Scenario.db3).2
  = [].
Proof. vm_compute. reflexivity. Qed.

(** ** Registering *)

(** C5, as amended.  For every registration attempt, on a store the
    application can reach, whose email (compared case-insensitively) or
    student_id equals that of a stored User: the Users table gains no row
    (the store is left as it was), and when the attempt passes validation
    (the five required fields non-empty, the password of at least 6
    characters) it fails with ConflictError (409). *)
Theorem register_duplicate data env st :
  reachable st →
  Exists (λ u, lower (Users.email u) = lower (data !!! "email") ∨
               Users.student_id u = Some (data !!! "student_id")) (users st) →
  (register data env st).2 = st ∧
  (Forall (λ field, truthy (data !! field) = true)
          ["student_id"; "first_name"; "last_name"; "email"; "password"] →
   (6 ≤ String.length (data !!! "password"))%nat →
   (register data env st).1 = (409, json_error "Email already registered") ∨
   (register data env st).1 = (409, json_error "Student ID already registered")).
Proof.
  intros Hreach Hdup. apply reachable_ok, ok_emails in Hreach as Hlow.
  unfold register.
  destruct (find _ _) as [field|] eqn:Hfind.
  { split; [done|]. intros Hall _.
    apply find_some in Hfind as [Hin Hfalsy]. apply list_elem_of_In in Hin.
    rewrite Forall_forall in Hall. rewrite (Hall field Hin) in Hfalsy. done. }
  case_decide as Hlen; [split; [done|lia]|].
  destruct (fetchone _) eqn:Hemail; [split; [done|auto]|].
  destruct (fetchone (select (λ u, Users.student_id u = _) _)) eqn:Hsid; [split; [done|auto]|].
  exfalso. apply fetchone_select_None in Hemail, Hsid.
  apply Exists_exists in Hdup as (u & Hu & Hdup).
  unfold emails_lowercase in Hlow. rewrite Forall_forall in Hemail, Hsid, Hlow.
  destruct Hdup as [Hdup|Hdup]; [|by apply (Hsid u Hu)].
  apply (Hemail u Hu). rewrite <- Hdup. symmetry. by apply Hlow.
Qed.

Lemma register_duplicate_witness :
  (register Scenario.registration Scenario.env3 Scenario.db1).2 = Scenario.db1 ∧
  ((register Scenario.registration Scenario.env3 Scenario.db1).1
   = (409, json_error "Email already registered") ∨
   (register Scenario.registration Scenario.env3 Scenario.db1).1
   = (409, json_error "Student ID already registered")).
Proof.
  assert (Exists (λ u, lower (Users.email u) = lower (Scenario.registration !!! "email") ∨
                       Users.student_id u = Some (Scenario.registration !!! "student_id"))
                 (users Scenario.db1)) as Hdup.
  { apply (bool_decide_unpack _). vm_compute. exact I. }
  destruct (register_duplicate Scenario.registration Scenario.env3 Scenario.db1
              db1_reachable Hdup) as [Hstore Hcode].
  split; [exact Hstore|]. apply Hcode.
  - apply (bool_decide_unpack _). vm_compute. exact I.
  - vm_compute. lia.
Defined.

(** C5, as stated, fails: the email is that of a stored user up to case,
    and the attempt is answered with 400 because its password is short. *)
Lemma register_duplicate_short_password :
  let data : gmap string string :=
    {[ "student_id" := "S2"; "first_name" := "C"; "last_name" := "D";
       "email" := "A@X.COM"; "password" := "abc" ]} in
  Exists (λ u, lower (Users.email u) = lower (data !!! "email")) (users Scenario.db1) ∧
  (register data Scenario.env3 Scenario.db1).1
  = (400, json_error "Password must be at least 6 characters").
Proof.
  split.
  - apply (bool_decide_unpack _). vm_compute. exact I.
  - vm_compute. reflexivity.
Qed.

(** ** Listing attendance *)

#[global] Instance timestamp_desc_transitive : Transitive timestamp_desc.
Proof. intros r1 r2 r3 H12 H23. unfold timestamp_desc in *. by etrans. Qed.

#[global] Instance timestamp_desc_total : Total timestamp_desc.
Proof. intros r1 r2. unfold timestamp_desc. destruct (total String.le
  (Attendance.timestamp r1) (Attendance.timestamp r2)); auto. Qed.

Lemma order_by_timestamp_desc_sorted rows :
  StronglySorted timestamp_desc (order_by_timestamp_desc rows).
Proof. apply order_by_StronglySorted; apply _. Qed.

Lemma order_by_timestamp_desc_perm rows : order_by_timestamp_desc rows ≡ₚ rows.
Proof. apply order_by_Permutation. Qed.

Lemma get_attendance_by_event args st event_id :
  args !! "event_id" = Some event_id → event_id ≠ "" →
  get_attendance args st
  = (200, json_attendance
            (order_by_timestamp_desc
               (select (λ r, Attendance.event_id r = event_id) (attendance st)))).
Proof.
  intros He Hne. unfold get_attendance. rewrite lookup_total_alt, He. simpl.
  apply String.eqb_neq in Hne. by rewrite Hne.
Qed.

Lemma order_by_timestamp_desc_stored rows :
  StronglySorted timestamp_desc rows → order_by_timestamp_desc rows = rows.
Proof.
  unfold order_by_timestamp_desc, order_by.
  induction 1 as [|r rows _ IH Hall]; simpl; [done|]. rewrite IH.
  destruct rows as [|r' rows]; simpl; [done|].
  apply Forall_cons in Hall as [Hr _]. by rewrite decide_True.
Qed.

(** C7, as amended.  For every attendance list query, a query value
    counting as supplied when it is present and not empty: if an event_id
    is supplied, exactly the records with that event_id are returned and
    any student_id besides is ignored; if no event_id but a student_id is
    supplied, exactly the records with that student_id are returned; if
    neither is supplied, all records are returned.  The returned records
    are ordered by timestamp descending: the timestamp of each is at
    least that of every record after it, and records stored in that order
    already are returned as stored. *)
Theorem get_attendance_filters st :
  (∀ args event_id,
     args !! "event_id" = Some event_id → event_id ≠ "" →
     ∃ records,
       get_attendance args st = (200, json_attendance records) ∧
       records ≡ₚ filter (λ r, Attendance.event_id r = event_id) (attendance st) ∧
       get_attendance (delete "student_id" args) st = (200, json_attendance records) ∧
       (∀ student_id,
          get_attendance (<["student_id" := student_id]> args) st
          = (200, json_attendance records))) ∧
  (∀ args student_id,
     args !! "event_id" = None ∨ args !! "event_id" = Some "" →
     args !! "student_id" = Some student_id → student_id ≠ "" →
     ∃ records,
       get_attendance args st = (200, json_attendance records) ∧
       records ≡ₚ filter (λ r, Attendance.student_id r = student_id) (attendance st)) ∧
  (∀ args,
     args !! "event_id" = None ∨ args !! "event_id" = Some "" →
     args !! "student_id" = None ∨ args !! "student_id" = Some "" →
     ∃ records,
       get_attendance args st = (200, json_attendance records) ∧
       records ≡ₚ attendance st ∧
       (StronglySorted
          (λ r1 r2, String.le (Attendance.timestamp r2) (Attendance.timestamp r1))
          (attendance st) →
        records = attendance st)) ∧
  (∀ args,
     ∃ records,
       get_attendance args st = (200, json_attendance records) ∧
       StronglySorted
         (λ r1 r2, String.le (Attendance.timestamp r2) (Attendance.timestamp r1))
         records).
Proof.
  assert (∀ args : gmap string string, ∀ key,
            args !! key = None ∨ args !! key = Some "" → truthy (args !! key) = false)
    as Hfalsy by (by intros args key [-> | ->]).
  split_and!.
  - intros args event_id He Hne. eexists. split_and!.
    + by apply get_attendance_by_event.
    + apply order_by_timestamp_desc_perm.
    + apply get_attendance_by_event; [|done]. by rewrite lookup_delete_ne.
    + intros student_id. apply get_attendance_by_event; [|done].
      by rewrite lookup_insert_ne.
  - intros args student_id He%Hfalsy Hs Hne. eexists. split.
    + unfold get_attendance. rewrite He, lookup_total_alt, Hs. simpl.
      apply String.eqb_neq in Hne. by rewrite Hne.
    + apply order_by_timestamp_desc_perm.
  - intros args He%Hfalsy Hs%Hfalsy. eexists. split_and!.
    + unfold get_attendance. by rewrite He, Hs.
    + apply order_by_timestamp_desc_perm.
    + apply order_by_timestamp_desc_stored.
  - intros args. unfold get_attendance. eexists. split; [done|].
    repeat case_match; apply order_by_timestamp_desc_sorted.
Qed.

(** C7, as stated, fails: an event_id is supplied, empty; no stored record
    has that event_id, and the stored record is returned. *)
Lemma get_attendance_empty_event_id :
  let args : gmap string string := {[ "event_id" := "" ]} in
  args !! "event_id" = Some "" ∧
  filter (λ r, Attendance.event_id r = "") (attendance Scenario.db3) = [] ∧
  get_attendance args Scenario.db3 = (200, json_attendance [Campus.record1]).
Proof. split_and!; by vm_compute. Qed.

(** Of two records the later one comes first. *)
Example get_attendance_latest_first :
  let early :=
    {| Attendance.id := "a1"; Attendance.event_id := "e"; Attendance.student_id := "s1";
       Attendance.student_name := "A B"; Attendance.student_photo := None;
       Attendance.timestamp := "2026-01-01T09:00:00" |} in
  let late :=
    {| Attendance.id := "a2"; Attendance.event_id := "e"; Attendance.student_id := "s2";
       Attendance.student_name := "C D"; Attendance.student_photo := None;
       Attendance.timestamp := "2026-01-01T10:30:00" |} in
  get_attendance {[ "event_id" := "e" ]} (set_attendance empty_store [early; late])
  = (200, json_attendance [late; early]).
Proof. vm_compute. reflexivity. Qed.

Example get_attendance_event1 :
  ∃ r, get_attendance {[ "event_id" := "event1"; "student_id" := "nobody" ]} Scenario.db3
       = (200, json_attendance [r]) ∧
       Attendance.student_id r = Scenario.student ∧ Attendance.student_name r = "A B".
Proof. eexists. vm_compute. done. Qed.

(** ** Updating a profile *)

(** The row that the UPDATE of [update_user] writes in place of [u]. *)
Lemma update_user_fields_assign data u :
  foldl set_user_column u (update_user_fields data)
  = {| Users.id := Users.id u;
       Users.student_id := Users.student_id u;
       Users.first_name := default (Users.first_name u) (data !! "first_name");
       Users.last_name := default (Users.last_name u) (data !! "last_name");
       Users.email := default (Users.email u) (lower <$> data !! "email");
       Users.password :=
         match data !! "password" with
         | Some v => if decide (6 <= String.length v) then v else Users.password u
         | None => Users.password u
         end;
       Users.role := Users.role u;
       Users.status := Users.status u;
       Users.profile_photo :=
         match data !! "profile_photo" with
         | Some v => Some v
         | None => Users.profile_photo u
         end;
       Users.qr_code := Users.qr_code u;
       Users.created_at := Users.created_at u |}.
Proof.
  unfold update_user_fields.
  destruct (data !! "first_name"), (data !! "last_name"), (data !! "email"),
    (data !! "password"), (data !! "profile_photo"), u;
    repeat case_decide; reflexivity.
Qed.

Lemma update_user_Ok session user_id data st msg st' :
  update_user session user_id data st = ((200, msg), st') →
  not_self_nor_admin session user_id = false ∧
  update_user_fields data ≠ [] ∧
  st' = set_users st
          (update_where (λ u, Users.id u = user_id)
             (λ u, foldl set_user_column u (update_user_fields data)) (users st)).
Proof.
  unfold update_user, users_update.
  destruct (not_self_nor_admin _ _); [intros [=]|].
  case_decide; [intros [=]|]. case_decide; [intros [=]|].
  by intros [= _ <-].
Qed.

(** ** Emails are stored in lowercase *)

Lemma lower_char_spec c :
  (isupper c = true → N_of_ascii (lower_char c) = (N_of_ascii c + 32)%N) ∧
  (isupper c = false → lower_char c = c) ∧
  isupper (lower_char c) = false.
Proof. destruct c as [[] [] [] [] [] [] [] []]; vm_compute; by split_and!. Qed.

Lemma lower_chars s :
  list_ascii_of_string (lower s) = lower_char <$> list_ascii_of_string s.
Proof. induction s as [|c s IH]; simpl; [done|]. by rewrite IH. Qed.

Lemma lower_no_uppercase s : no_uppercase (lower s).
Proof.
  unfold no_uppercase. rewrite lower_chars, Forall_fmap. apply Forall_forall.
  intros c _. apply lower_char_spec.
Qed.

(** C9.  In every store the application can reach no stored email has an
    uppercase letter, and every write keeps it so: a successful
    registration stores the supplied email lowercased, a successful
    profile update that supplies an email stores it lowercased.
    Lowercasing replaces each uppercase letter of the text by its
    lowercase letter (32 code points up) and leaves every other character.
    Login lowercases the supplied email before the lookup, so two
    spellings of an email that differ in case log in alike, and comparing
    a stored email with a lowercased input is comparing the two without
    regard to case. *)
Theorem emails_lowercase_invariant st :
  reachable st →
  Forall (λ u, no_uppercase (Users.email u)) (users st) ∧
  (∀ session req,
     Forall (λ u, no_uppercase (Users.email u)) (users (handle session req st).2)) ∧
  (∀ env, Forall (λ u, no_uppercase (Users.email u)) (users (init_db env st))) ∧
  (∀ s,
     list_ascii_of_string (lower s) = lower_char <$> list_ascii_of_string s ∧
     no_uppercase (lower s) ∧ (no_uppercase s → lower s = s)) ∧
  (∀ c,
     (isupper c = true → N_of_ascii (lower_char c) = (N_of_ascii c + 32)%N) ∧
     (isupper c = false → lower_char c = c)) ∧
  (∀ data env msg st',
     register data env st = ((201, msg), st') →
     ∃ u, users st' = (users st ++ [u])%list ∧ Users.email u = lower (data !!! "email")) ∧
  (∀ session user_id data e msg st',
     data !! "email" = Some e →
     update_user session user_id data st = ((200, msg), st') →
     Forall (λ u, Users.id u = user_id → Users.email u = lower e) (users st')) ∧
  (∀ session data e1 e2,
     lower e1 = lower e2 →
     login session (<["email" := e1]> data) st = login session (<["email" := e2]> data) st) ∧
  (∀ u e, u ∈ users st → Users.email u = lower e ↔ lower (Users.email u) = lower e).
Proof.
  intros Hreach.
  assert (∀ st, reachable st → Forall (λ u, no_uppercase (Users.email u)) (users st))
    as Hinv.
  { intros st0 Hlow%reachable_ok%ok_emails. unfold emails_lowercase in Hlow.
    eapply Forall_impl; [exact Hlow|]. intros u <-. apply lower_no_uppercase. }
  split_and!.
  - by apply Hinv.
  - intros session req. by apply Hinv, reachable_request.
  - intros env. by apply Hinv, reachable_restart.
  - intros s. split_and!; [apply lower_chars|apply lower_no_uppercase|].
    unfold no_uppercase. induction s as [|c s IH]; simpl; [done|].
    intros [Hc Hs]%Forall_cons. rewrite IH by done.
    by rewrite (proj1 (proj2 (lower_char_spec c)) Hc).
  - intros c. destruct (lower_char_spec c) as (? & ? & _). done.
  - intros data env msg st'. unfold register.
    destruct (find _ _); [intros [=]|]. case_decide; [intros [=]|].
    destruct (fetchone _); [intros [=]|]. destruct (fetchone _); [intros [=]|].
    destruct (users_insert _ _) as [us|] eqn:Hins; [|intros [=]].
    intros [= _ <-]. apply users_insert_Ok in Hins as [-> _]. by eexists.
  - intros session user_id data e msg st' He (_ & _ & ->)%update_user_Ok. simpl.
    unfold update_where. rewrite Forall_fmap. apply Forall_forall. intros u _. simpl.
    case_decide as Hu; [|done]. intros _.
    by rewrite update_user_fields_assign, He.
  - intros session data e1 e2 Hcase. unfold login, get_or_empty.
    rewrite !lookup_insert_eq, !lookup_insert_ne by done. simpl. by rewrite Hcase.
  - intros u e Hu. apply reachable_ok, ok_emails in Hreach as Hlow.
    unfold emails_lowercase in Hlow. rewrite Forall_forall in Hlow.
    by rewrite (Hlow u Hu).
Qed.

Lemma emails_lowercase_invariant_witness :
  Forall (λ u, no_uppercase (Users.email u)) (users Scenario.db1) ∧
  lower "A@X.com" = "a@x.com" ∧
  login ∅ (<["email" := "A@X.com"]> {[ "password" := "secret1" ]}) Scenario.db1
  = login ∅ (<["email" := "a@x.COM"]> {[ "password" := "secret1" ]}) Scenario.db1 ∧
  (login ∅ (<["email" := "A@X.com"]> {[ "password" := "secret1" ]}) Scenario.db1).2
  = {[ "role" := "student"; "user_id" := Scenario.student ]}.
Proof.
  destruct (emails_lowercase_invariant Scenario.db1 db1_reachable)
    as (Hlow & _ & _ & _ & _ & _ & _ & Hlogin & _).
  split_and!; [exact Hlow|reflexivity|by apply Hlogin|by vm_compute].
Defined.

Example login_any_case :
  ∃ ud, (login ∅ {[ "email" := "A@X.com"; "password" := "secret1" ]} Scenario.db1).1
        = (200, json_user ud) ∧ ud_email ud = "a@x.com".
Proof. eexists. vm_compute. done. Qed.

(** ** A short password in a profile update *)

Lemma update_user_fields_short_password data pw :
  data !! "password" = Some pw → String.length pw < 6 →
  update_user_fields data = update_user_fields (delete "password" data).
Proof.
  intros Hpw Hlen. unfold update_user_fields.
  rewrite lookup_delete_eq, !lookup_delete_ne, Hpw by done.
  by rewrite decide_False by lia.
Qed.

(** C10, as amended.  In a profile update, a supplied password shorter than 6
    characters is dropped from the update and not rejected: the call does
    what it does without the password.  If the password is the only field
    supplied the call fails with ValidationError ('No fields to update',
    400) and the store is left as it was.  If other fields are supplied
    the call is not answered with 400: unless the UPDATE fails on the
    uniqueness of a supplied email (500, nothing written) it succeeds, and
    then the user's row takes the supplied first_name, last_name, email
    (in lowercase) and profile_photo and keeps its password. *)
Theorem update_user_short_password session user_id data st pw :
  data !! "password" = Some pw →
  String.length pw < 6 →
  update_user session user_id data st
  = update_user session user_id (delete "password" data) st ∧
  (not_self_nor_admin session user_id = false →
   data !! "first_name" = None → data !! "last_name" = None →
   data !! "email" = None → data !! "profile_photo" = None →
   update_user session user_id data st = ((400, json_error "No fields to update"), st)) ∧
  (not_self_nor_admin session user_id = false →
   is_Some (data !! "first_name") ∨ is_Some (data !! "last_name") ∨
   is_Some (data !! "email") ∨ is_Some (data !! "profile_photo") →
   (update_user session user_id data st).1 = (200, json_message "Profile updated successfully") ∨
   (is_Some (data !! "email") ∧
    update_user session user_id data st
    = ((500, json_error "UNIQUE constraint failed: users.email"), st))) ∧
  (∀ msg st',
     update_user session user_id data st = ((200, msg), st') →
     events st' = events st ∧ attendance st' = attendance st ∧
     users st'
     = (λ u, if decide (Users.id u = user_id)
             then {| Users.id := Users.id u;
                     Users.student_id := Users.student_id u;
                     Users.first_name := default (Users.first_name u) (data !! "first_name");
                     Users.last_name := default (Users.last_name u) (data !! "last_name");
                     Users.email := default (Users.email u) (lower <$> data !! "email");
                     Users.password := Users.password u;
                     Users.role := Users.role u;
                     Users.status := Users.status u;
                     Users.profile_photo :=
                       match data !! "profile_photo" with
                       | Some v => Some v
                       | None => Users.profile_photo u
                       end;
                     Users.qr_code := Users.qr_code u;
                     Users.created_at := Users.created_at u |}
             else u) <$> users st).
Proof.
  intros Hpw Hlen.
  pose proof (update_user_fields_short_password data pw Hpw Hlen) as Hfields.
  split_and!.
  - unfold update_user. by rewrite Hfields.
  - intros Hauth Hfirst Hlast Hemail Hphoto. unfold update_user. rewrite Hauth.
    unfold update_user_fields. rewrite Hfirst, Hlast, Hemail, Hphoto, Hpw.
    by rewrite (decide_False (P := 6 <= String.length pw)) by lia.
  - intros Hauth Hsupplied. unfold update_user, users_update. rewrite Hauth.
    rewrite decide_False; [|].
    + case_decide as Hconflict; [right|by left]. split; [|done].
      destruct Hconflict as [(a & Ha & Hin)%list_elem_of_fmap _].
      revert Hin. unfold update_user_fields. rewrite Hpw, decide_False by lia.
      destruct (data !! "email"); [by eexists|].
      destruct (data !! "first_name"), (data !! "last_name"), (data !! "profile_photo");
        simpl; intros Hin; set_solver.
    + unfold update_user_fields.
      destruct Hsupplied as [[v Hv]|[[v Hv]|[[v Hv]|[v Hv]]]]; rewrite Hv;
        destruct (data !! "first_name"), (data !! "last_name"), (data !! "email"),
          (data !! "password"), (data !! "profile_photo"); repeat case_decide; done.
  - intros msg st' (_ & _ & ->)%update_user_Ok. split_and!; [done..|]. simpl.
    unfold update_where. apply list_fmap_ext. intros _ u _. simpl.
    case_decide; [|done].
    by rewrite update_user_fields_assign, Hpw, decide_False by lia.
Qed.

Lemma update_user_short_password_witness :
  update_user Scenario.student_session Scenario.student {[ "password" := "abc" ]} Scenario.db1
  = ((400, json_error "No fields to update"), Scenario.db1) ∧
  ((update_user Scenario.student_session Scenario.student
      {[ "password" := "abc"; "first_name" := "Zed" ]} Scenario.db1).1
   = (200, json_message "Profile updated successfully") ∨
   (is_Some (({[ "password" := "abc"; "first_name" := "Zed" ]} : gmap string string) !! "email") ∧
    update_user Scenario.student_session Scenario.student
      {[ "password" := "abc"; "first_name" := "Zed" ]} Scenario.db1
    = ((500, json_error "UNIQUE constraint failed: users.email"), Scenario.db1))).
Proof.
  split.
  - apply (update_user_short_password Scenario.student_session Scenario.student
             {[ "password" := "abc" ]} Scenario.db1 "abc"); try reflexivity.
    vm_compute. lia.
  - apply (update_user_short_password Scenario.student_session Scenario.student
             {[ "password" := "abc"; "first_name" := "Zed" ]} Scenario.db1 "abc");
      try reflexivity.
    + vm_compute. lia.
    + left. by eexists.
Defined.

(** C10, as stated, fails: the password is short and dropped, but the
    email supplied besides is that of another user, so the UPDATE is
    refused, the call answers 500 and the first_name supplied with it is
    not applied. *)
Lemma update_user_short_password_email_taken :
  let session : Session := {[ "user_id" := Campus.student2; "role" := "student" ]} in
  let data : gmap string string :=
    {[ "password" := "abc"; "first_name" := "Eve"; "email" := "A@X.com" ]} in
  fetchone (select (λ u, Users.id u = Campus.student2) (users Campus.db5))
  = Some Campus.user2 ∧
  Users.first_name Campus.user2 = "C" ∧
  update_user session Campus.student2 data Campus.db5
  = ((500, json_error "UNIQUE constraint failed: users.email"), Campus.db5).
Proof. split_and!; by vm_compute. Qed.

Example update_user_keeps_password :
  ∃ st' u,
    update_user Scenario.student_session Scenario.student
      {[ "password" := "abc"; "first_name" := "Zed" ]} Scenario.db1
    = ((200, json_message "Profile updated successfully"), st') ∧
    fetchone (select (λ u, Users.id u = Scenario.student) (users st')) = Some u ∧
    Users.first_name u = "Zed" ∧ Users.password u = "secret1".
Proof. do 2 eexists. vm_compute. done. Qed.


(** * Further properties of the routes *)

(** ** Keys, roles and statuses in every reachable store *)

Lemma users_insert_Ok_unique u rows us :
  users_insert u rows = Ok us →
  us = (rows ++ [u])%list ∧ (Users.id u ∉ Users.id <$> rows) ∧
  (Users.email u ∉ Users.email <$> rows) ∧
  (is_Some (Users.student_id u) → Users.student_id u ∉ Users.student_id <$> rows).
Proof.
  unfold users_insert. repeat case_decide; intros [= <-].
  split_and!; [done..|]. intros Hsome Hin. tauto.
Qed.

Lemma set_user_column_student_id u a :
  Users.student_id (set_user_column u a) = Users.student_id u.
Proof. by destruct a. Qed.

Lemma assign_student_id assignments u :
  Users.student_id (foldl set_user_column u assignments) = Users.student_id u.
Proof.
  revert u. induction assignments as [|a l IH]; intros u; simpl; [done|].
  by rewrite IH, set_user_column_student_id.
Qed.

Lemma assign_role assignments u :
  "role" ∉ assignments.*1 →
  Users.role (foldl set_user_column u assignments) = Users.role u.
Proof.
  revert u. induction assignments as [|[c v] l IH]; intros u Hno; simpl; [done|].
  rewrite fmap_cons, not_elem_of_cons in Hno. destruct Hno as [Hc Hl].
  rewrite IH by done. simpl. by rewrite decide_False.
Qed.

Lemma assign_email assignments u :
  "email" ∉ assignments.*1 →
  Users.email (foldl set_user_column u assignments) = Users.email u.
Proof.
  revert u. induction assignments as [|[c v] l IH]; intros u Hno; simpl; [done|].
  rewrite fmap_cons, not_elem_of_cons in Hno. destruct Hno as [Hc Hl].
  rewrite IH by done. simpl. by rewrite decide_False.
Qed.

Lemma update_user_fields_no_role data : "role" ∉ (update_user_fields data).*1.
Proof.
  intros (a & Ha & Hin)%list_elem_of_fmap.
  pose proof (update_user_fields_spec data) as Hspec.
  rewrite Forall_forall in Hspec. destruct (Hspec a Hin) as [Hcol _].
  rewrite <- Ha in Hcol. set_solver.
Qed.

Section table_facts.
Context {A : Type}.
Implicit Types (rows : list A).

Lemma update_where_omap {B} (P : A → Prop) `{!∀ r, Decision (P r)} (f : A → A)
    (g : A → option B) rows :
  (∀ r, g (f r) = g r) → omap g (update_where P f rows) = omap g rows.
Proof.
  intros Hg. induction rows as [|r rows IH]; [done|].
  change (update_where P f (r :: rows))
    with ((if decide (P r) then f r else r) :: update_where P f rows).
  change (omap g (r :: rows)) with (from_option (λ b, b :: omap g rows) (omap g rows) (g r)).
  rewrite <- IH.
  assert (g (if decide (P r) then f r else r) = g r) as <- by (case_decide; by rewrite ?Hg).
  simpl. by destruct (g (if decide (P r) then f r else r)).
Qed.

Lemma delete_where_omap_sublist {B} (P : A → Prop) `{!∀ r, Decision (P r)}
    (g : A → option B) rows :
  omap g (delete_where P rows) `sublist_of` omap g rows.
Proof.
  unfold delete_where. induction rows as [|r rows IH]; [done|].
  rewrite filter_cons.
  change (omap g (r :: rows)) with (from_option (λ b, b :: omap g rows) (omap g rows) (g r)).
  case_decide.
  - change (omap g (r :: filter (λ r, ¬ P r) rows))
      with (from_option (λ b, b :: omap g (filter (λ r, ¬ P r) rows))
              (omap g (filter (λ r, ¬ P r) rows)) (g r)).
    destruct (g r); simpl; [by apply sublist_skip|done].
  - destruct (g r); simpl; [by apply sublist_cons|done].
Qed.

(** An UPDATE of the row with key [k] keeps a second column [g] unique
    when the new value of [g] is not held by another row. *)
Lemma update_where_NoDup {K B} `{EqDecision K} (key : A → K) (g : A → B) (k : K)
    (f : A → A) rows :
  NoDup (key <$> rows) → NoDup (g <$> rows) →
  (∀ u v, u ∈ rows → v ∈ rows → key u = k → key v ≠ k → g v ≠ g (f u)) →
  NoDup (g <$> update_where (λ r, key r = k) f rows).
Proof.
  induction rows as [|a rows IH]; intros Hkeys Hg Hfree; [done|].
  rewrite fmap_cons in Hkeys. rewrite fmap_cons in Hg.
  apply NoDup_cons in Hkeys as [Hka Hkeys]. apply NoDup_cons in Hg as [Hga Hg].
  unfold update_where. rewrite fmap_cons. fold (update_where (λ r, key r = k) f rows).
  rewrite fmap_cons. apply NoDup_cons. destruct (decide (key a = k)) as [Ha|Ha].
  - assert (Forall (λ r, ¬ key r = k) rows) as Hnone.
    { apply Forall_forall. intros r Hr Hk. destruct Hka. rewrite Ha, <- Hk.
      by apply list_elem_of_fmap_2. }
    rewrite update_where_none by done. split; [|done].
    intros (v & Hv & Hin)%list_elem_of_fmap.
    rewrite Forall_forall in Hnone.
    apply (Hfree a v); [left|by right|done|by apply Hnone|done].
  - split.
    + intros (v' & Hv' & Hin)%list_elem_of_fmap.
      apply list_elem_of_fmap in Hin as (v & -> & Hin). case_decide as Hv.
      * apply (Hfree v a); [by right|left|done..].
      * destruct Hga. rewrite Hv'. by apply list_elem_of_fmap_2.
    + apply IH; [done..|]. intros u v Hu Hv. apply Hfree; by right.
Qed.
End table_facts.

Lemma store_sound_set_events st es : store_sound st → store_sound (set_events st es).
Proof. by intros []. Qed.

Lemma store_sound_update_users (P : Users.row → Prop) `{!∀ u, Decision (P u)} f st :
  NoDup (Users.email <$> update_where P f (users st)) →
  (∀ u, Users.student_id (f u) = Users.student_id u) →
  (∀ u, Users.role u = "student" ∨ Users.role u = "admin" →
        Users.role (f u) = "student" ∨ Users.role (f u) = "admin") →
  (∀ u, Users.status u = "pending" ∨ Users.status u = "verified" →
        Users.status (f u) = "pending" ∨ Users.status (f u) = "verified") →
  store_sound st → store_sound (set_users st (update_where P f (users st))).
Proof.
  intros Hemails Hsid Hrole Hstatus [_ Hsids Hroles Hstatuses Hgiven]. split.
  - done.
  - unfold student_ids_unique. simpl. by rewrite update_where_omap.
  - by apply update_where_Forall.
  - by apply update_where_Forall.
  - done.
Qed.

Lemma store_sound_insert_user u st :
  Users.email u ∉ Users.email <$> users st →
  (is_Some (Users.student_id u) → Users.student_id u ∉ Users.student_id <$> users st) →
  Users.role u = "student" ∨ Users.role u = "admin" →
  Users.status u = "pending" ∨ Users.status u = "verified" →
  store_sound st → store_sound (set_users st (users st ++ [u])).
Proof.
  intros Hemail Hsid Hrole Hstatus [Hemails Hsids Hroles Hstatuses Hgiven]. split.
  - unfold user_emails_unique. simpl. rewrite fmap_app. apply NoDup_app.
    split_and!; [done| |apply NoDup_singleton].
    intros x Hx ->%list_elem_of_singleton. done.
  - unfold student_ids_unique. simpl. rewrite omap_app. apply NoDup_app.
    split_and!; [done| |].
    + intros x (v & Hv & Hvx)%list_elem_of_omap. simpl.
      destruct (Users.student_id u) as [sid|] eqn:Hu; [|by intros ?%elem_of_nil].
      intros ->%list_elem_of_singleton. destruct Hsid; [by eexists|].
      rewrite <- Hvx. by apply list_elem_of_fmap_2.
    + simpl. destruct (Users.student_id u); [apply NoDup_singleton|apply NoDup_nil_2].
  - apply Forall_app. split; [done|]. by apply Forall_singleton.
  - apply Forall_app. split; [done|]. by apply Forall_singleton.
  - done.
Qed.

Lemma init_db_sound env st : store_sound st → store_sound (init_db env st).
Proof.
  intros Hsound. unfold init_db.
  destruct (fetchone _); [done|].
  destruct (users_insert _ _) as [us|] eqn:Hins; [|done].
  apply users_insert_Ok_unique in Hins as (-> & _ & Hemail & Hsid).
  apply store_sound_insert_user; auto.
Qed.

Lemma register_sound data env st : store_sound st → store_sound (register data env st).2.
Proof.
  intros Hsound. unfold register.
  destruct (find _ _); [done|]. case_decide; [done|].
  destruct (fetchone _); [done|]. destruct (fetchone _); [done|].
  destruct (users_insert _ _) as [us|] eqn:Hins; [|done].
  apply users_insert_Ok_unique in Hins as (-> & _ & Hemail & Hsid).
  apply store_sound_insert_user; auto.
Qed.

Lemma update_user_sound session user_id data st :
  store_ok st → store_sound st → store_sound (update_user session user_id data st).2.
Proof.
  intros Hok Hsound. unfold update_user, users_update.
  destruct (not_self_nor_admin _ _); [done|].
  case_decide; [done|]. case_decide as Hconflict; [done|]. simpl.
  apply store_sound_update_users; [| | | |done].
  - destruct (decide ("email" ∈ (update_user_fields data).*1)) as [Hemail|Hemail].
    + apply update_where_NoDup; [apply Hok|apply Hsound|].
      intros u v Hu Hv Hid Hne Heq. apply Hconflict. split; [done|].
      apply Exists_exists. exists u. split_and!; [done..|].
      apply Exists_exists. by exists v.
    + rewrite update_where_fmap; [apply Hsound|]. intros u. by apply assign_email.
  - intros u. apply assign_student_id.
  - intros u. rewrite assign_role; [done|]. apply update_user_fields_no_role.
  - intros u. rewrite assign_status; [done|]. apply update_user_fields_no_status.
Qed.

Lemma verify_user_sound session user_id data st :
  store_sound st → store_sound (verify_user session user_id data st).2.
Proof.
  intros Hsound. unfold verify_user.
  destruct (negb (is_admin _)); [done|]. destruct (negb (truthy _)); [done|]. simpl.
  apply store_sound_update_users; [|done|done|by right|done].
  rewrite update_where_fmap; [apply Hsound|done].
Qed.

Lemma update_user_role_sound session user_id data st :
  store_sound st → store_sound (update_user_role session user_id data st).2.
Proof.
  intros Hsound. unfold update_user_role.
  destruct (negb (is_admin _)); [done|]. case_decide as Hrole; [|done]. simpl.
  apply store_sound_update_users; [|done| |done|done].
  - rewrite update_where_fmap; [apply Hsound|done].
  - intros u _. simpl. rewrite lookup_total_alt. by destruct Hrole as [-> | ->]; auto.
Qed.

Lemma delete_user_sound session user_id st :
  store_sound st → store_sound (delete_user session user_id st).2.
Proof.
  intros [Hemails Hsids Hroles Hstatuses Hgiven]. unfold delete_user.
  destruct (negb (is_admin _)); [done|]. split; simpl.
  - unfold user_emails_unique. simpl.
    eapply sublist_NoDup; [exact Hemails|apply fmap_sublist, delete_where_sublist].
  - unfold student_ids_unique. simpl.
    eapply sublist_NoDup; [exact Hsids|apply delete_where_omap_sublist].
  - by apply delete_where_Forall.
  - by apply delete_where_Forall.
  - by apply delete_where_Forall.
Qed.

Lemma mark_attendance_sound session data env st :
  store_sound st → store_sound (mark_attendance session data env st).2.
Proof.
  intros Hsound. unfold mark_attendance.
  destruct (negb (is_admin _)); [done|].
  destruct (truthy (data !! "event_id")) eqn:He; [|done].
  destruct (truthy (data !! "student_id")) eqn:Hs; [|done]. simpl.
  destruct (fetchone _); [done|]. destruct (fetchone _); [|done].
  case_decide; [done|].
  destruct (attendance_insert _ _) as [rs|] eqn:Hins; [|done].
  apply attendance_insert_Ok in Hins as [-> _].
  destruct Hsound as [Hemails Hsids Hroles Hstatuses Hgiven]. split; [done..|].
  apply Forall_app. split; [done|]. apply Forall_singleton. simpl.
  rewrite !lookup_total_alt.
  destruct (data !! "event_id") as [e|], (data !! "student_id") as [s|]; try done.
  simpl in *. apply negb_true_iff, String.eqb_neq in He, Hs. done.
Qed.

Lemma handle_sound session req st :
  store_ok st → store_sound st → store_sound (handle session req st).2.
Proof.
  intros Hok Hsound. destruct req; simpl.
  - by apply register_sound.
  - by apply update_user_sound.
  - by apply delete_user_sound.
  - by apply verify_user_sound.
  - by apply update_user_role_sound.
  - unfold create_event. destruct (negb (is_admin _)); [done|].
    destruct (find _ _); [done|]. destruct (events_insert _ _); [|done].
    by apply store_sound_set_events.
  - unfold update_event. destruct (negb (is_admin _)); [done|]. case_decide; [done|].
    by apply store_sound_set_events.
  - unfold delete_event. destruct (negb (is_admin _)); [done|].
    destruct Hsound. split; [done..|]. by apply delete_where_Forall.
  - by apply mark_attendance_sound.
  - unfold delete_attendance. destruct (negb (is_admin _)); [done|].
    destruct Hsound. split; [done..|]. by apply delete_where_Forall.
Qed.

Lemma reachable_sound st : reachable st → store_sound st.
Proof.
  induction 1 as [env|env st _ IH|session req st Hreach IH].
  - apply init_db_sound. split; (apply Forall_nil_2 || apply NoDup_nil_2).
  - by apply init_db_sound.
  - apply handle_sound; [by apply reachable_ok|done].
Qed.

(** X1.  In every store the application can reach no two users share an
    id, an email (compared without regard to case) or a non-null
    student_id, and no two attendance records share an id. *)
Theorem user_keys_unique st :
  reachable st →
  NoDup (Users.id <$> users st) ∧
  NoDup ((λ u, lower (Users.email u)) <$> users st) ∧
  NoDup (omap Users.student_id (users st)) ∧
  NoDup (Attendance.id <$> attendance st).
Proof.
  intros Hreach.
  pose proof (reachable_ok st Hreach) as Hok. pose proof (reachable_sound st Hreach) as Hsound.
  split_and!; [apply Hok| |apply Hsound|apply Hok].
  rewrite (Forall_fmap_ext_1 _ Users.email); [apply Hsound|apply Hok].
Qed.

Lemma db5_reachable : reachable Campus.db5.
Proof. do 2 apply reachable_request. exact db3_reachable. Qed.

Lemma user_keys_unique_witness :
  NoDup (Users.id <$> users Campus.db5) ∧
  NoDup ((λ u, lower (Users.email u)) <$> users Campus.db5) ∧
  NoDup (omap Users.student_id (users Campus.db5)) ∧
  NoDup (Attendance.id <$> attendance Campus.db5).
Proof. exact (user_keys_unique Campus.db5 db5_reachable). Defined.

(** X2.  In every store the application can reach each user has the role
    'student' or 'admin' and the status 'pending' or 'verified': no route
    writes another role or status. *)
Theorem roles_and_statuses_known st :
  reachable st →
  Forall (λ u, (Users.role u = "student" ∨ Users.role u = "admin") ∧
               (Users.status u = "pending" ∨ Users.status u = "verified")) (users st).
Proof.
  intros [_ _ Hroles Hstatuses _]%reachable_sound.
  unfold roles_known, statuses_known in *. rewrite Forall_forall in *. auto.
Qed.

Lemma roles_and_statuses_known_witness :
  Forall (λ u, (Users.role u = "student" ∨ Users.role u = "admin") ∧
               (Users.status u = "pending" ∨ Users.status u = "verified"))
         (users Campus.db5).
Proof. exact (roles_and_statuses_known Campus.db5 db5_reachable). Defined.

(** X3.  In every store the application can reach each attendance record
    has a non-empty event_id and student_id, its student_id is the id of a
    stored user whose status is 'verified', and no two records have the
    same (event_id, student_id). *)
Theorem attendance_records_sound st :
  reachable st →
  Forall (λ r, Attendance.event_id r ≠ "" ∧ Attendance.student_id r ≠ "" ∧
               verified_student st (Attendance.student_id r)) (attendance st) ∧
  NoDup ((λ r, (Attendance.event_id r, Attendance.student_id r)) <$> attendance st).
Proof.
  intros Hreach.
  pose proof (reachable_ok st Hreach) as Hok. pose proof (reachable_sound st Hreach) as Hsound.
  split; [|apply Hok].
  pose proof (ok_verified st Hok) as Hver. pose proof (sound_attendance st Hsound) as Hgiven.
  unfold attendance_of_verified, attendance_ids_given in *. rewrite Forall_forall in *.
  intros r Hr. destruct (Hgiven r Hr). split_and!; [done..|]. by apply Hver.
Qed.

Lemma attendance_records_sound_witness :
  Forall (λ r, Attendance.event_id r ≠ "" ∧ Attendance.student_id r ≠ "" ∧
               verified_student Campus.db5 (Attendance.student_id r))
         (attendance Campus.db5) ∧
  NoDup ((λ r, (Attendance.event_id r, Attendance.student_id r)) <$> attendance Campus.db5).
Proof. exact (attendance_records_sound Campus.db5 db5_reachable). Defined.

(** ** Verification is never undone *)

Lemma verified_student_update (P : Users.row → Prop) `{!∀ u, Decision (P u)} f st i :
  (∀ u, Users.id (f u) = Users.id u) →
  (∀ u, Users.status u = "verified" → Users.status (f u) = "verified") →
  verified_student st i →
  verified_student (set_users st (update_where P f (users st))) i.
Proof.
  intros Hid Hstatus Hver. unfold verified_student in *. simpl.
  apply update_where_Exists; [|done]. intros u [<- Hu]. auto.
Qed.

Lemma verified_student_insert rows u st i :
  users_insert u (users st) = Ok rows →
  verified_student st i → verified_student (set_users st rows) i.
Proof.
  intros [-> _]%users_insert_Ok Hver. unfold verified_student in *. simpl.
  apply Exists_app. by left.
Qed.

(** X4.  No request, and no restart, takes the status 'verified' away: a
    user id that is verified before a request is verified after it,
    unless the request deleted the user. *)
Theorem verified_is_kept session req st i :
  verified_student st i →
  (i ∈ Users.id <$> users (handle session req st).2 →
   verified_student (handle session req st).2 i) ∧
  (∀ env, verified_student (init_db env st) i).
Proof.
  intros Hver. split.
  - destruct req; simpl.
    + intros _. unfold register. destruct (find _ _); [done|]. case_decide; [done|].
      destruct (fetchone _); [done|]. destruct (fetchone _); [done|].
      destruct (users_insert _ _) eqn:Hins; [|done]. by eapply verified_student_insert.
    + intros _. unfold update_user, users_update.
      destruct (not_self_nor_admin _ _); [done|].
      case_decide; [done|]. case_decide; [done|]. simpl.
      apply verified_student_update; [apply assign_id| |done].
      intros u Hu. rewrite assign_status; [done|]. apply update_user_fields_no_status.
    + unfold delete_user. destruct (negb (is_admin _)); [done|]. simpl.
      intros (v & -> & [Hne Hv]%delete_where_elem)%list_elem_of_fmap.
      unfold verified_student in *. simpl. rewrite Exists_exists in *.
      destruct Hver as (u & Hu & Hid & Hstatus). exists u. split; [|done].
      apply delete_where_elem. split; [congruence|done].
    + intros _. unfold verify_user. destruct (negb (is_admin _)); [done|].
      destruct (negb (truthy _)); [done|]. simpl. by apply verified_student_update.
    + intros _. unfold update_user_role. destruct (negb (is_admin _)); [done|].
      case_decide; [|done]. simpl. by apply verified_student_update.
    + intros _. unfold create_event. destruct (negb (is_admin _)); [done|].
      destruct (find _ _); [done|]. by destruct (events_insert _ _).
    + intros _. unfold update_event. destruct (negb (is_admin _)); [done|].
      by case_decide.
    + intros _. unfold delete_event. by destruct (negb (is_admin _)).
    + intros _. unfold mark_attendance. destruct (negb (is_admin _)); [done|].
      destruct (_ || _); [done|]. destruct (fetchone _); [done|].
      destruct (fetchone _); [|done]. case_decide; [done|].
      by destruct (attendance_insert _ _).
    + intros _. unfold delete_attendance. by destruct (negb (is_admin _)).
  - intros env. unfold init_db. destruct (fetchone _); [done|].
    destruct (users_insert _ _) eqn:Hins; [|done]. by eapply verified_student_insert.
Qed.

Lemma verified_is_kept_witness :
  verified_student
    (handle Scenario.student_session
       (UpdateUser Scenario.student {[ "first_name" := "Zed"; "email" := "z@x.com" ]})
       Scenario.db3).2 Scenario.student.
Proof.
  apply (verified_is_kept Scenario.student_session
           (UpdateUser Scenario.student {[ "first_name" := "Zed"; "email" := "z@x.com" ]})
           Scenario.db3 Scenario.student).
  - unfold verified_student. apply (bool_decide_unpack _). vm_compute. exact I.
  - apply (bool_decide_unpack _). vm_compute. exact I.
Defined.

(** ** Who may do what *)

(** X5.  A session whose role is not 'admin' can write to the store only
    by registering or by updating the profile of its own user_id: every
    other writing request, and a profile update for another id, is
    answered with 403 'Unauthorized' and leaves the store as it was.  Such
    a session is also refused the user list, the statistics and the
    profile of any other id. *)
Theorem non_admin_session session st :
  is_admin session = false →
  (∀ req,
     match req with
     | Register _ _ => True
     | UpdateUser user_id _ =>
       session !! "user_id" ≠ Some user_id → handle session req st = (unauthorized, st)
     | _ => handle session req st = (unauthorized, st)
     end) ∧
  (∀ user_id, session !! "user_id" ≠ Some user_id →
              get_user session user_id st = unauthorized) ∧
  get_users session st = (403, read_error "Unauthorized") ∧
  get_stats session st = (403, read_error "Unauthorized").
Proof.
  intros Hadmin.
  assert (∀ user_id, session !! "user_id" ≠ Some user_id →
                     not_self_nor_admin session user_id = true) as Hother.
  { intros user_id Hne. unfold not_self_nor_admin. rewrite Hadmin.
    by rewrite bool_decide_eq_false_2. }
  split_and!.
  - intros [data env|user_id data|user_id|user_id data|user_id data|data env|event_id data
           |event_id|data env|attendance_id]; simpl; [done| |..].
    + intros Hne. unfold update_user. by rewrite Hother.
    + unfold delete_user. by rewrite Hadmin.
    + unfold verify_user. by rewrite Hadmin.
    + unfold update_user_role. by rewrite Hadmin.
    + unfold create_event. by rewrite Hadmin.
    + unfold update_event. by rewrite Hadmin.
    + unfold delete_event. by rewrite Hadmin.
    + unfold mark_attendance. by rewrite Hadmin.
    + unfold delete_attendance. by rewrite Hadmin.
  - intros user_id Hne. unfold get_user. by rewrite Hother.
  - unfold get_users. by rewrite Hadmin.
  - unfold get_stats. by rewrite Hadmin.
Qed.

Lemma non_admin_session_witness :
  handle Scenario.student_session (DeleteUser "admin_1767225600") Scenario.db3
  = (unauthorized, Scenario.db3) ∧
  handle Scenario.student_session (VerifyUser Scenario.student Scenario.verify_request)
    Scenario.db1
  = (unauthorized, Scenario.db1) ∧
  get_stats Scenario.student_session Scenario.db3 = (403, read_error "Unauthorized").
Proof.
  destruct (non_admin_session Scenario.student_session Scenario.db3 eq_refl)
    as (Hreq & _ & _ & Hstats).
  destruct (non_admin_session Scenario.student_session Scenario.db1 eq_refl)
    as (Hreq1 & _).
  split_and!; [exact (Hreq (DeleteUser "admin_1767225600"))|
               exact (Hreq1 (VerifyUser Scenario.student Scenario.verify_request))|
               exact Hstats].
Defined.

(** ** Logging in *)

Lemma lower_empty s : lower s = "" ↔ s = "".
Proof. by destruct s. Qed.

Lemma NoDup_fmap_eq {A B} (f : A → B) (l : list A) x y :
  NoDup (f <$> l) → x ∈ l → y ∈ l → f x = f y → x = y.
Proof.
  induction l as [|a l IH]; intros Hnodup Hx Hy Hf; [by apply elem_of_nil in Hx|].
  rewrite fmap_cons in Hnodup. apply NoDup_cons in Hnodup as [Ha Hnodup].
  apply elem_of_cons in Hx as [->|Hx]; apply elem_of_cons in Hy as [->|Hy]; auto.
  - destruct Ha. rewrite Hf. by apply list_elem_of_fmap_2.
  - destruct Ha. rewrite <- Hf. by apply list_elem_of_fmap_2.
Qed.

Lemma login_checked session data st :
  get_or_empty data "email" ≠ "" → get_or_empty data "password" ≠ "" →
  login session data st
  = match fetchone (select (λ u, Users.email u = lower (get_or_empty data "email") ∧
                                 Users.password u = get_or_empty data "password")
                           (users st)) with
    | None => ((401, json_error "Invalid credentials"), session)
    | Some user =>
      ((200, json_user (user_data_of user false)),
       <["role" := Users.role user]> (<["user_id" := Users.id user]> session))
    end.
Proof.
  intros He Hp. unfold login. simpl.
  assert (lower (get_or_empty data "email") ≠ "") as He' by by rewrite lower_empty.
  apply String.eqb_neq in He', Hp. by rewrite He', Hp.
Qed.

Lemma login_accepted session data st body session' :
  login session data st = ((200, body), session') →
  ∃ u, u ∈ users st ∧
       Users.email u = lower (get_or_empty data "email") ∧
       Users.password u = get_or_empty data "password" ∧
       body = json_user (user_data_of u false) ∧
       session' !! "user_id" = Some (Users.id u) ∧
       session' !! "role" = Some (Users.role u).
Proof.
  intros Hlogin.
  destruct (decide (get_or_empty data "email" = "")) as [He|He].
  { unfold login in Hlogin. simpl in Hlogin. apply lower_empty in He.
    rewrite He in Hlogin. done. }
  destruct (decide (get_or_empty data "password" = "")) as [Hp|Hp].
  { unfold login in Hlogin. simpl in Hlogin. rewrite Hp, orb_true_r in Hlogin. done. }
  rewrite login_checked in Hlogin by done.
  destruct (fetchone _) as [u|] eqn:Hu; [|done].
  apply fetchone_select_Some in Hu as (Hin & Hemail & Hpw).
  injection Hlogin as <- <-. exists u. split_and!; [done..| |].
  - by rewrite lookup_insert_ne, lookup_insert_eq.
  - by rewrite lookup_insert_eq.
Qed.

(** X6.  The outcomes of login.  With an empty or missing email or
    password it answers 400; with both given and no stored user holding
    the lowercased email together with exactly that password it answers
    401; in both cases the session is left as it was.  Whenever it answers
    200, the dictionary returned is that of a stored user with that email
    and password, and the session names that user's id and role. *)
Theorem login_outcomes session data st :
  (get_or_empty data "email" = "" ∨ get_or_empty data "password" = "" →
   login session data st = ((400, json_error "Email and password required"), session)) ∧
  (get_or_empty data "email" ≠ "" → get_or_empty data "password" ≠ "" →
   Forall (λ u, ¬ (Users.email u = lower (get_or_empty data "email") ∧
                   Users.password u = get_or_empty data "password")) (users st) →
   login session data st = ((401, json_error "Invalid credentials"), session)) ∧
  (∀ body session',
     login session data st = ((200, body), session') →
     ∃ u, u ∈ users st ∧
          Users.email u = lower (get_or_empty data "email") ∧
          Users.password u = get_or_empty data "password" ∧
          body = json_user (user_data_of u false) ∧
          session' !! "user_id" = Some (Users.id u) ∧
          session' !! "role" = Some (Users.role u)).
Proof.
  split_and!.
  - intros Hempty. unfold login. simpl.
    destruct Hempty as [He|Hp]; [|rewrite Hp, orb_true_r; done].
    apply lower_empty in He. by rewrite He.
  - intros He Hp Hnone. rewrite login_checked by done.
    apply (fetchone_select_None
             (λ u, Users.email u = lower (get_or_empty data "email") ∧
                   Users.password u = get_or_empty data "password")) in Hnone.
    by rewrite Hnone.
  - apply login_accepted.
Qed.

Lemma fetchone_user_by_credentials st u :
  user_emails_unique st → u ∈ users st →
  fetchone (select (λ v, Users.email v = Users.email u ∧ Users.password v = Users.password u)
                   (users st)) = Some u.
Proof.
  intros Hemails Hu.
  destruct (fetchone_select_elem
              (λ v, Users.email v = Users.email u ∧ Users.password v = Users.password u)
              (users st) u) as [v Hv]; [done..|].
  rewrite Hv. f_equal.
  apply fetchone_select_Some in Hv as (Hin & Hemail & _).
  by apply (NoDup_fmap_eq Users.email (users st)).
Qed.

Lemma init_db_passwords env st : passwords_given st → passwords_given (init_db env st).
Proof.
  intros Hgiven. unfold init_db. destruct (fetchone _); [done|].
  destruct (users_insert _ _) as [us|] eqn:Hins; [|done].
  apply users_insert_Ok in Hins as [-> _]. apply Forall_app. split; [done|].
  apply Forall_singleton. simpl. lia.
Qed.

Lemma handle_passwords session req st :
  passwords_given st → passwords_given (handle session req st).2.
Proof.
  intros Hgiven. unfold passwords_given in *. destruct req; simpl.
  - unfold register. destruct (find _ _); [done|]. case_decide as Hlen; [done|].
    destruct (fetchone _); [done|]. destruct (fetchone _); [done|].
    destruct (users_insert _ _) as [us|] eqn:Hins; [|done].
    apply users_insert_Ok in Hins as [-> _]. apply Forall_app. split; [done|].
    apply Forall_singleton. simpl. lia.
  - unfold update_user, users_update. destruct (not_self_nor_admin _ _); [done|].
    case_decide; [done|]. case_decide; [done|]. simpl.
    apply update_where_Forall; [|done]. intros u Hu.
    rewrite update_user_fields_assign. simpl.
    destruct (data !! "password"); [|done]. by case_decide.
  - unfold delete_user. destruct (negb (is_admin _)); [done|]. simpl.
    by apply delete_where_Forall.
  - unfold verify_user. destruct (negb (is_admin _)); [done|].
    destruct (negb (truthy _)); [done|]. simpl. by apply update_where_Forall.
  - unfold update_user_role. destruct (negb (is_admin _)); [done|].
    case_decide; [|done]. simpl. by apply update_where_Forall.
  - unfold create_event. destruct (negb (is_admin _)); [done|].
    destruct (find _ _); [done|]. by destruct (events_insert _ _).
  - unfold update_event. destruct (negb (is_admin _)); [done|]. by case_decide.
  - unfold delete_event. by destruct (negb (is_admin _)).
  - unfold mark_attendance. destruct (negb (is_admin _)); [done|].
    destruct (_ || _); [done|]. destruct (fetchone _); [done|].
    destruct (fetchone _); [|done]. case_decide; [done|].
    by destruct (attendance_insert _ _).
  - unfold delete_attendance. by destruct (negb (is_admin _)).
Qed.

Lemma reachable_passwords st : reachable st → passwords_given st.
Proof.
  induction 1 as [env|env st _ IH|session req st _ IH].
  - apply init_db_passwords. apply Forall_nil_2.
  - by apply init_db_passwords.
  - by apply handle_passwords.
Qed.

Lemma password_not_empty st u : reachable st → u ∈ users st → Users.password u ≠ "".
Proof.
  intros Hgiven%reachable_passwords Hu. unfold passwords_given in Hgiven.
  rewrite Forall_forall in Hgiven. specialize (Hgiven u Hu).
  intros Hempty. rewrite Hempty in Hgiven. simpl in Hgiven. lia.
Qed.

(** X7.  In a store the application can reach, take a stored user and log
    in with its email in any case and its exact password.  If the stored
    email is not empty, login answers 200 with that user's dictionary;
    the session it leaves is accepted by check_auth, which returns the
    same dictionary, and by get_user for the user's own id; it passes the
    admin guard exactly when the user's role is 'admin'; and logout leaves
    a session that check_auth answers with 401.  If the stored email is
    empty, which a profile update can make it, login answers 400. *)
Theorem login_then_check_auth session data st u :
  reachable st →
  u ∈ users st →
  lower (get_or_empty data "email") = Users.email u →
  get_or_empty data "password" = Users.password u →
  (Users.email u = "" →
   login session data st = ((400, json_error "Email and password required"), session)) ∧
  (Users.email u ≠ "" →
   let session' := (login session data st).2 in
   login session data st
   = ((200, json_user (user_data_of u false)),
      <["role" := Users.role u]> (<["user_id" := Users.id u]> session)) ∧
   check_auth session' st = (200, json_authenticated (Some (user_data_of u false))) ∧
   get_user session' (Users.id u) st = (200, json_user (user_data_of u true)) ∧
   (is_admin session' = true ↔ Users.role u = "admin") ∧
   check_auth (logout session').2 st = (401, json_authenticated None)).
Proof.
  intros Hreach Hu Hemail Hpw. split.
  { intros Hempty. unfold login. simpl. by rewrite Hemail, Hempty. }
  intros He session'. subst session'.
  assert (get_or_empty data "email" ≠ "") as He'.
  { intros Hempty. rewrite Hempty in Hemail. by destruct He. }
  assert (get_or_empty data "password" ≠ "") as Hp
    by (rewrite Hpw; by eapply password_not_empty).
  pose proof (reachable_ok st Hreach) as Hok. pose proof (reachable_sound st Hreach) as Hsound.
  rewrite login_checked, Hemail, Hpw by done.
  rewrite fetchone_user_by_credentials by (done || apply Hsound). simpl.
  split_and!; [done| | | |done].
  - unfold check_auth. rewrite lookup_insert_ne, lookup_insert_eq by done.
    by rewrite fetchone_user_by_id by (done || apply Hok).
  - unfold get_user, not_self_nor_admin.
    rewrite lookup_insert_ne, lookup_insert_eq by done.
    rewrite bool_decide_eq_true_2 by done. simpl.
    by rewrite fetchone_user_by_id by (done || apply Hok).
  - unfold is_admin. rewrite lookup_insert_eq, bool_decide_eq_true.
    split; [by intros [= ->]|by intros ->].
Qed.

Lemma user2_stored : Campus.user2 ∈ users Campus.db5.
Proof.
  apply (fetchone_select_Some (λ u, Users.id u = Campus.student2)).
  vm_compute. reflexivity.
Qed.

Lemma login_then_check_auth_witness :
  login ∅ Campus.credentials2 Campus.db5
  = ((200, json_user (user_data_of Campus.user2 false)),
     {[ "role" := "student"; "user_id" := Campus.student2 ]}) ∧
  check_auth (login ∅ Campus.credentials2 Campus.db5).2 Campus.db5
  = (200, json_authenticated (Some (user_data_of Campus.user2 false))) ∧
  check_auth (logout (login ∅ Campus.credentials2 Campus.db5).2).2 Campus.db5
  = (401, json_authenticated None).
Proof.
  destruct (login_then_check_auth ∅ Campus.credentials2 Campus.db5 Campus.user2
              db5_reachable user2_stored eq_refl eq_refl) as [_ Hok].
  destruct Hok as (Hlogin & Hcheck & _ & _ & Hlogout); [done|].
  split_and!; [exact Hlogin|exact Hcheck|exact Hlogout].
Defined.

(** A user who has emptied the email can no longer log in. *)
Example login_with_empty_email :
  let emptied :=
    (update_user Scenario.student_session Scenario.student {[ "email" := "" ]}
       Scenario.db3) in
  emptied.1 = (200, json_message "Profile updated successfully") ∧
  (Users.email <$> fetchone (select (λ u, Users.id u = Scenario.student) (users emptied.2)))
  = Some "" ∧
  login ∅ {[ "email" := ""; "password" := "secret1" ]} emptied.2
  = ((400, json_error "Email and password required"), ∅).
Proof. split_and!; by vm_compute. Qed.

(** ** Registering, then logging in *)

Lemma find_falsy_None (data : gmap string string) (fields : list string) :
  Forall (λ field, truthy (data !! field) = true) fields →
  find (λ field, negb (truthy (data !! field))) fields = None.
Proof.
  intros Hall. destruct (find _ _) as [field|] eqn:Hfind; [|done].
  apply find_some in Hfind as [Hin Hfalsy]. apply list_elem_of_In in Hin.
  rewrite Forall_forall in Hall. by rewrite (Hall field Hin) in Hfalsy.
Qed.

Lemma truthy_total (data : gmap string string) key :
  truthy (data !! key) = true → data !!! key ≠ "".
Proof.
  rewrite lookup_total_alt. destruct (data !! key) as [v|]; simpl; [|done].
  by intros ?%negb_true_iff%String.eqb_neq.
Qed.

Lemma register_created data env st :
  Forall (λ field, truthy (data !! field) = true)
         ["student_id"; "first_name"; "last_name"; "email"; "password"] →
  (6 ≤ String.length (data !!! "password"))%nat →
  Forall (λ u, Users.email u ≠ lower (data !!! "email") ∧
               Users.student_id u ≠ Some (data !!! "student_id")) (users st) →
  fresh_id "student" env ∉ Users.id <$> users st →
  register data env st
  = ((201, json_message "Registration successful. Awaiting admin verification."),
     set_users st (users st ++ [registered_user data env])).
Proof.
  intros Hfields Hlen Hnew Hfresh. unfold register.
  rewrite find_falsy_None by done. rewrite decide_False by lia.
  rewrite Forall_forall in Hnew.
  rewrite (proj2 (fetchone_select_None (λ u, Users.email u = lower (data !!! "email")) _));
    [|apply Forall_forall; intros u Hu; by destruct (Hnew u Hu)].
  rewrite (proj2 (fetchone_select_None
                    (λ u, Users.student_id u = Some (data !!! "student_id")) _));
    [|apply Forall_forall; intros u Hu; by destruct (Hnew u Hu)].
  unfold users_insert. simpl. rewrite decide_False by done.
  rewrite decide_False; [rewrite decide_False; [done|]|].
  - intros (u & Hemail & Hu)%list_elem_of_fmap. by destruct (Hnew u Hu).
  - intros [_ (u & Hsid & Hu)%list_elem_of_fmap]. by destruct (Hnew u Hu).
Qed.

(** X8.  A registration whose five required fields are non-empty, whose
    password has at least 6 characters and whose lowercased email and
    student_id no stored user holds (the id drawn being new) answers 201
    and appends one user: role 'student', status 'pending', no qr_code,
    no photo, the email in lowercase.  Logging in afterwards with that
    email in any case and the same password answers 200 with that user's
    dictionary and leaves a session of role 'student'. *)
Theorem register_then_login data env st session creds :
  Forall (λ field, truthy (data !! field) = true)
         ["student_id"; "first_name"; "last_name"; "email"; "password"] →
  (6 ≤ String.length (data !!! "password"))%nat →
  Forall (λ u, Users.email u ≠ lower (data !!! "email") ∧
               Users.student_id u ≠ Some (data !!! "student_id")) (users st) →
  fresh_id "student" env ∉ Users.id <$> users st →
  lower (get_or_empty creds "email") = lower (data !!! "email") →
  get_or_empty creds "password" = data !!! "password" →
  register data env st
  = ((201, json_message "Registration successful. Awaiting admin verification."),
     set_users st (users st ++ [registered_user data env])) ∧
  login session creds (register data env st).2
  = ((200, json_user (user_data_of (registered_user data env) false)),
     <["role" := "student"]> (<["user_id" := fresh_id "student" env]> session)).
Proof.
  intros Hfields Hlen Hnew Hfresh Hemail Hpw.
  rewrite register_created by done. split; [done|]. simpl.
  rewrite Forall_forall in Hfields.
  assert (data !!! "email" ≠ "") as He.
  { apply truthy_total. apply Hfields. set_solver. }
  assert (data !!! "password" ≠ "") as Hp.
  { apply truthy_total. apply Hfields. set_solver. }
  rewrite login_checked; [|intros Hc; apply He, lower_empty; by rewrite <- Hemail, Hc
                          |by rewrite Hpw].
  rewrite Hemail, Hpw.
  assert (filter (λ u, Users.email u = lower (data !!! "email") ∧
                       Users.password u = data !!! "password") (users st) = []) as Hnone.
  { apply head_None.
    apply (fetchone_select_None (λ u, Users.email u = lower (data !!! "email") ∧
                                      Users.password u = data !!! "password")).
    eapply Forall_impl; [exact Hnew|]. intros u [Hu _] [Hu' _]. done. }
  unfold fetchone, select. simpl. rewrite filter_app, Hnone.
  by rewrite filter_cons_True.
Qed.

Lemma register_then_login_witness :
  register Campus.registration2 Campus.env5 Campus.db4
  = ((201, json_message "Registration successful. Awaiting admin verification."),
     set_users Campus.db4 (users Campus.db4 ++ [registered_user Campus.registration2 Campus.env5]))
  ∧
  login ∅ Campus.credentials2 (register Campus.registration2 Campus.env5 Campus.db4).2
  = ((200, json_user (user_data_of (registered_user Campus.registration2 Campus.env5) false)),
     <["role" := "student"]> (<["user_id" := fresh_id "student" Campus.env5]> ∅)).
Proof.
  apply (register_then_login Campus.registration2 Campus.env5 Campus.db4 ∅ Campus.credentials2).
  - apply (bool_decide_unpack _). vm_compute. exact I.
  - vm_compute. lia.
  - apply (bool_decide_unpack _). vm_compute. exact I.
  - apply (bool_decide_unpack _). vm_compute. exact I.
  - reflexivity.
  - reflexivity.
Defined.

(** ** What marking reads and what it writes *)

(** X9.  mark_attendance does not consult the events table: over any other
    events table it gives the same response and writes the same
    attendance rows, so an event_id that no stored event has is accepted
    like any other. *)
Theorem mark_attendance_ignores_events session data env st es :
  mark_attendance session data env (set_events st es)
  = ((mark_attendance session data env st).1,
     set_events (mark_attendance session data env st).2 es).
Proof.
  unfold mark_attendance. simpl.
  destruct (negb (is_admin _)); [done|]. destruct (_ || _); [done|].
  destruct (fetchone _); [done|]. destruct (fetchone _); [|done].
  case_decide; [done|]. by destruct (attendance_insert _ _).
Qed.

(** X10.  In a store the application can reach, marking by an admin with
    non-empty ids, for a stored verified student who has no record for
    the event yet (the id drawn being new), answers 201 and appends one
    record: it carries the event_id and student_id given, the student's
    first and last name joined by a space, the student's photo and the
    current time.  The list of the event and the list of the student then
    both contain that record. *)
Theorem mark_then_list session data env st student :
  reachable st →
  is_admin session = true →
  truthy (data !! "event_id") = true → truthy (data !! "student_id") = true →
  records_of (data !!! "event_id") (data !!! "student_id") st = [] →
  student ∈ users st → Users.id student = data !!! "student_id" →
  Users.status student = "verified" →
  fresh_id "attendance" env ∉ Attendance.id <$> attendance st →
  let row :=
    {| Attendance.id := fresh_id "attendance" env;
       Attendance.event_id := data !!! "event_id";
       Attendance.student_id := data !!! "student_id";
       Attendance.student_name := Users.first_name student +:+ " " +:+ Users.last_name student;
       Attendance.student_photo := Users.profile_photo student;
       Attendance.timestamp := now_isoformat env |} in
  let st' := (mark_attendance session data env st).2 in
  mark_attendance session data env st
  = ((201, json_message "Attendance marked successfully"),
     set_attendance st (attendance st ++ [row])) ∧
  (∃ records,
     get_attendance {[ "event_id" := data !!! "event_id" ]} st'
     = (200, json_attendance records) ∧ row ∈ records) ∧
  (∃ records,
     get_attendance {[ "student_id" := data !!! "student_id" ]} st'
     = (200, json_attendance records) ∧ row ∈ records).
Proof.
  intros Hreach Hadmin He Hs Hrec Hin Hid Hstatus Hfresh row st'. subst st'.
  pose proof (reachable_ok st Hreach) as Hok.
  destruct (mark_attendance_created session data env st) as (student0 & Hin0 & Hid0 & ->);
    [done..|apply Exists_exists; by exists student|done|].
  assert (student0 = student) as ->.
  { apply (NoDup_fmap_eq Users.id (users st)); [apply Hok|done..|congruence]. }
  change (attendance_row data env student) with row. simpl.
  apply truthy_total in He, Hs. split_and!; [done| |].
  - eexists. split.
    + apply get_attendance_by_event; [apply lookup_singleton_eq|done].
    + rewrite order_by_timestamp_desc_perm. apply list_elem_of_filter. split; [done|].
      simpl. apply elem_of_app. right. left.
  - eexists. split.
    + unfold get_attendance. rewrite lookup_singleton_ne by done. simpl.
      rewrite lookup_singleton_eq, lookup_total_singleton. simpl.
      apply String.eqb_neq in Hs. rewrite Hs. simpl. done.
    + rewrite order_by_timestamp_desc_perm. apply list_elem_of_filter. split; [done|].
      simpl. apply elem_of_app. right. left.
Qed.

Lemma user1_stored : Campus.user1 ∈ users Scenario.db2.
Proof.
  apply (fetchone_select_Some (λ u, Users.id u = Scenario.student)).
  vm_compute. reflexivity.
Qed.

Lemma mark_then_list_witness :
  (mark_attendance Scenario.admin Scenario.mark_request Scenario.env2 Scenario.db2).1
  = (201, json_message "Attendance marked successfully") ∧
  ∃ records r,
    get_attendance {[ "event_id" := "event1" ]}
      (mark_attendance Scenario.admin Scenario.mark_request Scenario.env2 Scenario.db2).2
    = (200, json_attendance records) ∧
    r ∈ records ∧ Attendance.student_name r = "A B" ∧
    Attendance.student_id r = Scenario.student.
Proof.
  destruct (mark_then_list Scenario.admin Scenario.mark_request Scenario.env2 Scenario.db2
              Campus.user1 db2_reachable eq_refl eq_refl eq_refl eq_refl user1_stored
              eq_refl eq_refl) as (Hmark & (records & Hlist & Hin) & _).
  { apply (bool_decide_unpack _). vm_compute. exact I. }
  split; [by rewrite Hmark|].
  exists records. eexists. split_and!; [exact Hlist|exact Hin|reflexivity..].
Defined.


(** ** Statistics *)

Lemma students_partition (rows : list Users.row) :
  Forall (λ u, Users.status u = "pending" ∨ Users.status u = "verified") rows →
  length (filter (λ u, Users.role u = "student") rows)
  = length (filter (λ u, Users.role u = "student" ∧ Users.status u = "pending") rows)
    + length (filter (λ u, Users.role u = "student" ∧ Users.status u = "verified") rows).
Proof.
  induction 1 as [|u rows Hu _ IH]; [done|].
  rewrite !filter_cons.
  destruct (decide (Users.role u = "student")) as [Hrole|Hrole].
  - destruct Hu as [Hu|Hu].
    + rewrite decide_True, decide_False by (rewrite ?Hu; naive_solver). simpl. lia.
    + rewrite decide_False, decide_True by (rewrite ?Hu; naive_solver). simpl. lia.
  - rewrite !decide_False by naive_solver. done.
Qed.

(** X12.  For an admin, get_stats answers 200 with five counts:
    total_students is the number of users of role 'student',
    pending_students and verified_students the number of those whose
    status is 'pending', respectively 'verified', total_events and
    total_attendance the sizes of the events and attendance tables.  In a
    store the application can reach every student is pending or verified,
    so total_students is the sum of the two. *)
Theorem get_stats_counts session st :
  reachable st →
  is_admin session = true →
  get_stats session st
  = (200, json_stats
       {| total_students := length (filter (λ u, Users.role u = "student") (users st));
          pending_students :=
            length (filter (λ u, Users.role u = "student" ∧ Users.status u = "pending")
                           (users st));
          verified_students :=
            length (filter (λ u, Users.role u = "student" ∧ Users.status u = "verified")
                           (users st));
          total_events := length (events st);
          total_attendance := length (attendance st) |}) ∧
  length (filter (λ u, Users.role u = "student") (users st))
  = length (filter (λ u, Users.role u = "student" ∧ Users.status u = "pending") (users st))
    + length (filter (λ u, Users.role u = "student" ∧ Users.status u = "verified")
                     (users st)).
Proof.
  intros Hreach Hadmin. split.
  - unfold get_stats. by rewrite Hadmin.
  - apply students_partition, reachable_sound, Hreach.
Qed.

Lemma get_stats_counts_witness :
  get_stats Scenario.admin Campus.db5
  = (200, json_stats {| total_students := 2; pending_students := 1; verified_students := 1;
                        total_events := 1; total_attendance := 1 |}).
Proof.
  destruct (get_stats_counts Scenario.admin Campus.db5 db5_reachable eq_refl) as [-> _].
  vm_compute. reflexivity.
Defined.

Example scenario_stats :
  get_stats Scenario.admin Scenario.db3
  = (200, json_stats {| total_students := 1; pending_students := 0; verified_students := 1;
                        total_events := 0; total_attendance := 1 |}).
Proof. vm_compute. reflexivity. Qed.

(** ** Listing users and events *)

#[global] Instance created_at_desc_transitive : Transitive created_at_desc.
Proof. intros u1 u2 u3 H12 H23. unfold created_at_desc in *. by etrans. Qed.

#[global] Instance created_at_desc_total : Total created_at_desc.
Proof.
  intros u1 u2. unfold created_at_desc.
  destruct (total String.le (Users.created_at u1) (Users.created_at u2)); auto.
Qed.

#[global] Instance date_start_time_desc_transitive : Transitive date_start_time_desc.
Proof.
  intros e1 e2 e3 [[Hne12 Hle12]|[Heq12 Hle12]] [[Hne23 Hle23]|[Heq23 Hle23]];
    unfold date_start_time_desc.
  - left. split; [|by etrans]. intros Heq13. rewrite Heq13 in Hle12.
    apply Hne23. by apply (anti_symm String.le).
  - left. by rewrite <- Heq23.
  - left. by rewrite Heq12.
  - right. split; [congruence|by etrans].
Qed.

#[global] Instance date_start_time_desc_total : Total date_start_time_desc.
Proof.
  intros e1 e2. unfold date_start_time_desc.
  destruct (decide (Events.date e1 = Events.date e2)) as [Heq|Hne].
  - destruct (total String.le (Events.start_time e1) (Events.start_time e2)); auto.
  - destruct (total String.le (Events.date e1) (Events.date e2)); auto.
Qed.

Lemma StronglySorted_weaken {A} (R R' : relation A) (l : list A) :
  (∀ x y, R x y → R' x y) → StronglySorted R l → StronglySorted R' l.
Proof.
  intros Himpl. induction 1 as [|x l _ IH Hall]; constructor; [done|].
  eapply Forall_impl; [exact Hall|]. auto.
Qed.

(** X13.  For an admin, get_users answers 200 with one dictionary (all
    columns but the password) per stored user, in decreasing order of
    created_at. *)
Theorem get_users_lists_all session st :
  is_admin session = true →
  ∃ rows,
    get_users session st = (200, json_users ((λ u, user_data_of u true) <$> rows)) ∧
    rows ≡ₚ users st ∧
    StronglySorted (λ u1 u2, String.le (Users.created_at u2) (Users.created_at u1)) rows.
Proof.
  intros Hadmin. unfold get_users. rewrite Hadmin. simpl.
  eexists. split_and!; [done|apply order_by_Permutation|].
  apply (order_by_StronglySorted created_at_desc).
Qed.

Lemma get_users_lists_all_witness :
  ∃ rows,
    get_users Scenario.admin Campus.db5
    = (200, json_users ((λ u, user_data_of u true) <$> rows)) ∧
    rows ≡ₚ users Campus.db5 ∧
    StronglySorted (λ u1 u2, String.le (Users.created_at u2) (Users.created_at u1)) rows.
Proof. exact (get_users_lists_all Scenario.admin Campus.db5 eq_refl). Defined.

(** X14.  get_events, which asks for no session, answers 200 with every
    stored event once, ordered by date descending and, among the events
    of one date, by start_time descending (both compared as text). *)
Theorem get_events_lists_all st :
  ∃ events_list,
    get_events st = (200, json_events events_list) ∧
    events_list ≡ₚ events st ∧
    StronglySorted
      (λ e1 e2, String.le (Events.date e2) (Events.date e1) ∧
                (Events.date e1 = Events.date e2 →
                 String.le (Events.start_time e2) (Events.start_time e1)))
      events_list.
Proof.
  unfold get_events. eexists. split_and!; [done|apply order_by_Permutation|].
  apply (StronglySorted_weaken date_start_time_desc);
    [|apply (order_by_StronglySorted date_start_time_desc)].
  intros e1 e2 [[Hne Hle]|[Heq Hle]]; split; [done|done| |done].
  rewrite Heq. reflexivity.
Qed.

(** ** Creating and updating events *)

Lemma find_first_falsy (data : gmap string string) (before after : list string) field :
  Forall (λ f, truthy (data !! f) = true) before →
  truthy (data !! field) = false →
  find (λ f, negb (truthy (data !! f))) (before ++ field :: after)%list = Some field.
Proof.
  intros Hbefore Hfield. induction Hbefore as [|f before Hf _ IH]; simpl.
  - by rewrite Hfield.
  - by rewrite Hf.
Qed.

(** X15.  Validation of the required fields.  register (fields student_id,
    first_name, last_name, email, password) and create_event by an admin
    (fields name, description, date, start_time, end_time) answer 400 with
    'Missing required field: ' followed by the first field, in that
    order, that is missing or empty, and leave the store as it was. *)
Theorem missing_field_reported session data env st before field after :
  Forall (λ f, truthy (data !! f) = true) before →
  truthy (data !! field) = false →
  ((before ++ field :: after)%list
   = ["student_id"; "first_name"; "last_name"; "email"; "password"] →
   register data env st = ((400, json_error ("Missing required field: " +:+ field)), st)) ∧
  ((before ++ field :: after)%list
   = ["name"; "description"; "date"; "start_time"; "end_time"] →
   is_admin session = true →
   create_event session data env st
   = ((400, json_error ("Missing required field: " +:+ field)), st)).
Proof.
  intros Hbefore Hfield. split.
  - intros Hfields. unfold register. by rewrite <- Hfields, find_first_falsy.
  - intros Hfields Hadmin. unfold create_event.
    by rewrite <- Hfields, Hadmin, find_first_falsy.
Qed.

Lemma missing_field_reported_witness :
  register {[ "student_id" := "S9"; "first_name" := "N"; "email" := "n@x.com" ]}
    Campus.env5 Scenario.db1
  = ((400, json_error "Missing required field: last_name"), Scenario.db1) ∧
  create_event Scenario.admin {[ "name" := "Kickoff"; "description" := ""; "date" := "" ]}
    Campus.env4 Scenario.db1
  = ((400, json_error "Missing required field: description"), Scenario.db1).
Proof.
  split.
  - apply (missing_field_reported ∅
             {[ "student_id" := "S9"; "first_name" := "N"; "email" := "n@x.com" ]}
             Campus.env5 Scenario.db1 ["student_id"; "first_name"] "last_name"
             ["email"; "password"]); [|reflexivity..].
    apply (bool_decide_unpack _). vm_compute. exact I.
  - apply (missing_field_reported Scenario.admin
             {[ "name" := "Kickoff"; "description" := ""; "date" := "" ]}
             Campus.env4 Scenario.db1 ["name"] "description"
             ["date"; "start_time"; "end_time"]); [|reflexivity..].
    apply (bool_decide_unpack _). vm_compute. exact I.
Defined.

(** X16.  create_event by an admin with the five fields non-empty (the id
    drawn being new) answers 201 with the new event_id and appends one
    event holding the five fields and the status 'active'; get_events then
    lists that event. *)
Theorem create_event_then_list session data env st :
  is_admin session = true →
  Forall (λ f, truthy (data !! f) = true)
         ["name"; "description"; "date"; "start_time"; "end_time"] →
  fresh_id "event" env ∉ Events.id <$> events st →
  create_event session data env st
  = ((201, json_message_event "Event created successfully" (fresh_id "event" env)),
     set_events st (events st ++ [created_event data env])%list) ∧
  ∃ events_list,
    get_events (create_event session data env st).2 = (200, json_events events_list) ∧
    created_event data env ∈ events_list.
Proof.
  intros Hadmin Hfields Hfresh.
  assert (create_event session data env st
          = ((201, json_message_event "Event created successfully" (fresh_id "event" env)),
             set_events st (events st ++ [created_event data env])%list)) as ->.
  { unfold create_event. rewrite Hadmin, find_falsy_None by done.
    unfold events_insert. simpl. by rewrite decide_False. }
  split; [done|]. unfold get_events. eexists. split; [done|].
  rewrite order_by_Permutation. simpl. apply elem_of_app. right. left.
Qed.

Lemma create_event_then_list_witness :
  create_event Scenario.admin Campus.event_request Campus.env4 Scenario.db3
  = ((201, json_message_event "Event created successfully" "event_1767225840_11223344"),
     set_events Scenario.db3
       (events Scenario.db3 ++ [created_event Campus.event_request Campus.env4])%list) ∧
  ∃ events_list,
    get_events (create_event Scenario.admin Campus.event_request Campus.env4 Scenario.db3).2
    = (200, json_events events_list) ∧
    created_event Campus.event_request Campus.env4 ∈ events_list.
Proof.
  apply (create_event_then_list Scenario.admin Campus.event_request Campus.env4 Scenario.db3);
    [reflexivity| |].
  - apply (bool_decide_unpack _). vm_compute. exact I.
  - apply (bool_decide_unpack _). vm_compute. exact I.
Defined.

Lemma update_event_fields_assign (data : gmap string string) e :
  foldl set_event_column e
    (omap (λ field, pair field <$> data !! field)
          ["name"; "description"; "date"; "start_time"; "end_time"; "status"])
  = {| Events.id := Events.id e;
       Events.name := default (Events.name e) (data !! "name");
       Events.description := default (Events.description e) (data !! "description");
       Events.date := default (Events.date e) (data !! "date");
       Events.start_time := default (Events.start_time e) (data !! "start_time");
       Events.end_time := default (Events.end_time e) (data !! "end_time");
       Events.status := default (Events.status e) (data !! "status");
       Events.created_at := Events.created_at e |}.
Proof.
  simpl.
  destruct (data !! "name"), (data !! "description"), (data !! "date"),
    (data !! "start_time"), (data !! "end_time"), (data !! "status"), e; reflexivity.
Qed.

(** X17.  update_event by an admin is a partial update.  If the body has
    none of name, description, date, start_time, end_time and status
    (whatever else it has) the call answers 400 'No fields to update' and
    writes nothing.  Otherwise it answers 200, whether or not an event
    has the id, and every event with the id takes the fields supplied and
    keeps the others, its id and its created_at; other events, the users
    and the attendance records stay as they were. *)
Theorem update_event_partial session event_id data st :
  is_admin session = true →
  (Forall (λ field, data !! field = None)
          ["name"; "description"; "date"; "start_time"; "end_time"; "status"] →
   update_event session event_id data st = ((400, json_error "No fields to update"), st)) ∧
  (Exists (λ field, is_Some (data !! field))
          ["name"; "description"; "date"; "start_time"; "end_time"; "status"] →
   update_event session event_id data st
   = ((200, json_message "Event updated successfully"),
      set_events st
        ((λ e, if decide (Events.id e = event_id)
               then {| Events.id := Events.id e;
                       Events.name := default (Events.name e) (data !! "name");
                       Events.description :=
                         default (Events.description e) (data !! "description");
                       Events.date := default (Events.date e) (data !! "date");
                       Events.start_time :=
                         default (Events.start_time e) (data !! "start_time");
                       Events.end_time := default (Events.end_time e) (data !! "end_time");
                       Events.status := default (Events.status e) (data !! "status");
                       Events.created_at := Events.created_at e |}
               else e) <$> events st))).
Proof.
  intros Hadmin. split.
  - intros Hnone. unfold update_event. rewrite Hadmin. simpl.
    rewrite !Forall_cons in Hnone. destruct Hnone as (-> & -> & -> & -> & -> & -> & _).
    done.
  - intros Hsome. unfold update_event. rewrite Hadmin.
    change (negb true) with false. cbv iota.
    rewrite decide_False.
    + f_equal. f_equal. unfold update_where. apply list_fmap_ext. intros _ e _. simpl.
      case_decide; [|done]. apply update_event_fields_assign.
    + simpl. rewrite !Exists_cons, Exists_nil in Hsome.
      destruct (data !! "name"), (data !! "description"), (data !! "date"),
        (data !! "start_time"), (data !! "end_time"), (data !! "status"); try done.
      destruct Hsome as [[? [=]]|[[? [=]]|[[? [=]]|[[? [=]]|[[? [=]]|[[? [=]]|[]]]]]]].
Qed.

Lemma update_event_partial_witness :
  update_event Scenario.admin "event_1767225840_11223344" {[ "id" := "other" ]} Campus.db5
  = ((400, json_error "No fields to update"), Campus.db5) ∧
  (update_event Scenario.admin "event_1767225840_11223344" {[ "status" := "closed" ]}
     Campus.db5).1
  = (200, json_message "Event updated successfully").
Proof.
  destruct (update_event_partial Scenario.admin "event_1767225840_11223344"
              {[ "id" := "other" ]} Campus.db5 eq_refl) as [Hnone _].
  destruct (update_event_partial Scenario.admin "event_1767225840_11223344"
              {[ "status" := "closed" ]} Campus.db5 eq_refl) as [_ Hsome].
  split.
  - apply Hnone. apply (bool_decide_unpack _). vm_compute. exact I.
  - rewrite Hsome; [reflexivity|]. apply (bool_decide_unpack _). vm_compute. exact I.
Defined.

Example update_event_closes :
  (λ e, (Events.name e, Events.status e)) <$>
    events (update_event Scenario.admin "event_1767225840_11223344" {[ "status" := "closed" ]}
              Campus.db5).2
  = [("Kickoff", "closed")].
Proof. vm_compute. reflexivity. Qed.

(** ** Start-up *)

Lemma init_db_seeded env st :
  Forall (λ u, Users.email u ≠ admin_email) (users st) →
  Users.id (default_admin env) ∉ Users.id <$> users st →
  init_db env st = set_users st (users st ++ [default_admin env]).
Proof.
  intros Hnone Hfresh. unfold init_db.
  rewrite (proj2 (fetchone_select_None (λ u, Users.email u = admin_email) _)) by done.
  fold (default_admin env). unfold users_insert.
  rewrite decide_False by done.
  rewrite decide_False by (by intros [[? [=]] _]).
  rewrite decide_False; [done|].
  intros (u & Hu & Hin)%list_elem_of_fmap. rewrite Forall_forall in Hnone.
  by destruct (Hnone u Hin).
Qed.

Lemma init_db_present env st :
  Exists (λ u, Users.email u = admin_email) (users st) → init_db env st = st.
Proof.
  intros (u & Hu & Hemail)%Exists_exists. unfold init_db.
  by destruct (fetchone_select_elem (λ u, Users.email u = admin_email) (users st) u)
    as [v ->].
Qed.

(** X18.  Start-up seeds the default admin once.  If some user holds the
    seed email, init_db changes nothing.  Otherwise (the admin id drawn
    from the clock being new) it appends the default admin and touches
    nothing else; a further start-up then changes nothing, and logging in
    with the seed email and password answers 200 and leaves a session
    that passes the admin guard. *)
Theorem init_db_seeds_once env st :
  (Exists (λ u, Users.email u = admin_email) (users st) → init_db env st = st) ∧
  (Forall (λ u, Users.email u ≠ admin_email) (users st) →
   Users.id (default_admin env) ∉ Users.id <$> users st →
   init_db env st = set_users st (users st ++ [default_admin env]) ∧
   (∀ env', init_db env' (init_db env st) = init_db env st) ∧
   (∀ session,
      login session {[ "email" := admin_email; "password" := "hckthon2026" ]} (init_db env st)
      = ((200, json_user (user_data_of (default_admin env) false)),
         <["role" := "admin"]> (<["user_id" := Users.id (default_admin env)]> session)))).
Proof.
  split; [apply init_db_present|]. intros Hnone Hfresh.
  rewrite init_db_seeded by done. split_and!; [done| |].
  - intros env'. apply init_db_present. simpl. apply Exists_app. right. by left.
  - intros session.
    set (creds := ({[ "email" := admin_email; "password" := "hckthon2026" ]}
                   : gmap string string)).
    assert (lower (get_or_empty creds "email") = admin_email) as He by reflexivity.
    assert (get_or_empty creds "password" = "hckthon2026") as Hp by reflexivity.
    rewrite login_checked by done. rewrite He, Hp.
    unfold fetchone, select. simpl. rewrite filter_app.
    assert (filter (λ u, Users.email u = admin_email ∧ Users.password u = "hckthon2026")
                   (users st) = []) as ->.
    { apply head_None.
      apply (fetchone_select_None
               (λ u, Users.email u = admin_email ∧ Users.password u = "hckthon2026")).
      eapply Forall_impl; [exact Hnone|]. by intros u Hu [Hu' _]. }
    by rewrite filter_cons_True.
Qed.

(** ** Errors of the profile routes *)

(** X19.  A profile update that supplies an email which, lowercased, is
    the email of a user with another id fails when a user with the given
    id is stored: the UNIQUE constraint rejects the UPDATE, the route
    answers 500 with the database message, and nothing is written, the
    other supplied fields included. *)
Theorem update_user_email_taken session user_id data st e u v :
  not_self_nor_admin session user_id = false →
  data !! "email" = Some e →
  u ∈ users st → Users.id u = user_id →
  v ∈ users st → Users.id v ≠ user_id → Users.email v = lower e →
  update_user session user_id data st
  = ((500, json_error "UNIQUE constraint failed: users.email"), st).
Proof.
  intros Hauth He Hu Hid Hv Hne Hemail. unfold update_user, users_update. rewrite Hauth.
  assert (("email", lower e) ∈ update_user_fields data) as Hfield.
  { unfold update_user_fields. rewrite He.
    rewrite !elem_of_app. right. right. left. left. }
  rewrite decide_False by (intros Hnil; rewrite Hnil in Hfield; by apply elem_of_nil in Hfield).
  rewrite decide_True; [done|]. split.
  - apply list_elem_of_fmap. by exists ("email", lower e).
  - apply Exists_exists. exists u. split_and!; [done..|].
    apply Exists_exists. exists v. split_and!; [done..|].
    by rewrite update_user_fields_assign, He.
Qed.

Lemma user1_stored_db5 : Campus.user1 ∈ users Campus.db5.
Proof.
  apply (fetchone_select_Some (λ u, Users.id u = Scenario.student)).
  vm_compute. reflexivity.
Qed.

Lemma update_user_email_taken_witness :
  update_user {[ "user_id" := Campus.student2; "role" := "student" ]} Campus.student2
    {[ "email" := "A@X.com"; "first_name" := "Eve" ]} Campus.db5
  = ((500, json_error "UNIQUE constraint failed: users.email"), Campus.db5).
Proof.
  apply (update_user_email_taken _ Campus.student2 _ Campus.db5 "A@X.com"
           Campus.user2 Campus.user1);
    [reflexivity|reflexivity|exact user2_stored|reflexivity|exact user1_stored_db5|
     |reflexivity].
  by vm_compute.
Defined.

(** X20.  update_user_role by an admin accepts the roles 'student' and
    'admin' only: with any other role, or none, it answers 400 'Invalid
    role' and writes nothing; with one of the two it answers 200 and
    every user with the id gets that role, all else staying as it was. *)
Theorem update_user_role_outcomes session user_id data st :
  is_admin session = true →
  (data !! "role" ≠ Some "student" → data !! "role" ≠ Some "admin" →
   update_user_role session user_id data st = ((400, json_error "Invalid role"), st)) ∧
  (∀ role, data !! "role" = Some role → role = "student" ∨ role = "admin" →
     update_user_role session user_id data st
     = ((200, json_message "Role updated successfully"),
        set_users st
          ((λ u, if decide (Users.id u = user_id)
                 then {| Users.id := Users.id u;
                         Users.student_id := Users.student_id u;
                         Users.first_name := Users.first_name u;
                         Users.last_name := Users.last_name u;
                         Users.email := Users.email u;
                         Users.password := Users.password u;
                         Users.role := role;
                         Users.status := Users.status u;
                         Users.profile_photo := Users.profile_photo u;
                         Users.qr_code := Users.qr_code u;
                         Users.created_at := Users.created_at u |}
                 else u) <$> users st))).
Proof.
  intros Hadmin. split.
  - intros Hs Ha. unfold update_user_role. rewrite Hadmin. simpl.
    rewrite decide_False; [done|]. by intros [?|?].
  - intros role Hrole Hknown. unfold update_user_role. rewrite Hadmin. simpl.
    rewrite decide_True by (rewrite Hrole; destruct Hknown as [-> | ->]; auto).
    by rewrite lookup_total_alt, Hrole.
Qed.

Lemma update_user_role_outcomes_witness :
  update_user_role Scenario.admin Scenario.student {[ "role" := "teacher" ]} Scenario.db3
  = ((400, json_error "Invalid role"), Scenario.db3) ∧
  (update_user_role Scenario.admin Scenario.student {[ "role" := "admin" ]} Scenario.db3).1
  = (200, json_message "Role updated successfully").
Proof.
  destruct (update_user_role_outcomes Scenario.admin Scenario.student {[ "role" := "teacher" ]}
              Scenario.db3 eq_refl) as [Hbad _].
  destruct (update_user_role_outcomes Scenario.admin Scenario.student {[ "role" := "admin" ]}
              Scenario.db3 eq_refl) as [_ Hgood].
  split; [by apply Hbad|]. rewrite (Hgood "admin"); [done|done|by right].
Defined.

(** ** After a user is deleted *)

(** X21.  Once an admin has deleted a user id, get_user for that id
    answers 404, check_auth of a session of that id answers 401, marking
    that id for any event answers 404 and writes nothing, and no login
    leaves a session of that id. *)
Theorem delete_user_aftermath session user_id st :
  is_admin session = true →
  let st' := (delete_user session user_id st).2 in
  get_user session user_id st' = (404, json_error "User not found") ∧
  (∀ viewer, viewer !! "user_id" = Some user_id →
             check_auth viewer st' = (401, json_authenticated None)) ∧
  (∀ data env,
     truthy (data !! "event_id") = true → data !! "student_id" = Some user_id →
     user_id ≠ "" →
     mark_attendance session data env st'
     = ((404, json_error "Student not found or not verified"), st')) ∧
  (∀ viewer creds body viewer',
     login viewer creds st' = ((200, body), viewer') →
     viewer' !! "user_id" ≠ Some user_id).
Proof.
  intros Hadmin st'. subst st'. unfold delete_user. rewrite Hadmin. simpl.
  assert (fetchone (select (λ u, Users.id u = user_id)
                           (delete_where (λ u, Users.id u = user_id) (users st))) = None)
    as Hgone by apply fetchone_select_None, delete_where_gone.
  split_and!.
  - unfold get_user, not_self_nor_admin. rewrite Hadmin, andb_false_r. simpl.
    by rewrite Hgone.
  - intros viewer Hviewer. unfold check_auth. rewrite Hviewer. simpl. by rewrite Hgone.
  - intros data env He Hs Hne.
    assert (data !!! "student_id" = user_id) as Hsid by by rewrite lookup_total_alt, Hs.
    unfold mark_attendance. rewrite Hadmin, He, Hs, Hsid. simpl.
    apply String.eqb_neq in Hne. rewrite Hne. simpl.
    rewrite (proj2 (fetchone_select_None
                      (λ r, Attendance.event_id r = data !!! "event_id" ∧
                            Attendance.student_id r = user_id) _)).
    + by rewrite Hgone.
    + eapply Forall_impl; [apply (delete_where_gone (λ r, Attendance.student_id r = user_id))|].
      intros r Hr [_ Hr']. done.
  - intros viewer creds body viewer' Hlogin.
    apply login_accepted in Hlogin as (u & [Hne _]%delete_where_elem & _ & _ & _ & -> & _).
    congruence.
Qed.

Lemma delete_user_aftermath_witness :
  let st' := (delete_user Scenario.admin Scenario.student Scenario.db3).2 in
  get_user Scenario.admin Scenario.student st' = (404, json_error "User not found") ∧
  check_auth Scenario.student_session st' = (401, json_authenticated None) ∧
  mark_attendance Scenario.admin Scenario.mark_request Scenario.env3 st'
  = ((404, json_error "Student not found or not verified"), st').
Proof.
  destruct (delete_user_aftermath Scenario.admin Scenario.student Scenario.db3 eq_refl)
    as (Hget & Hcheck & Hmark & _).
  split_and!; [exact Hget|by apply Hcheck|by apply Hmark].
Defined.

(** ** Repeating and undoing *)




(** X23.  Unmarking frees the pair.  In a store the application can
    reach, after an admin deletes a stored attendance record by its id,
    marking the same event and student again (the id drawn being new)
    answers 201. *)
Theorem unmark_then_mark session data env st r :
  reachable st →
  is_admin session = true →
  r ∈ attendance st →
  data !! "event_id" = Some (Attendance.event_id r) →
  data !! "student_id" = Some (Attendance.student_id r) →
  let st' := (delete_attendance session (Attendance.id r) st).2 in
  fresh_id "attendance" env ∉ Attendance.id <$> attendance st' →
  (mark_attendance session data env st').1
  = (201, json_message "Attendance marked successfully").
Proof.
  intros Hreach Hadmin Hr He Hs st' Hfresh.
  assert (reachable st') as Hreach'
    by apply (reachable_request session (DeleteAttendance (Attendance.id r)) st Hreach).
  pose proof (reachable_ok st Hreach) as Hok. pose proof (reachable_sound st Hreach) as Hsound.
  pose proof (sound_attendance st Hsound) as Hgiven. pose proof (ok_verified st Hok) as Hver.
  unfold attendance_ids_given, attendance_of_verified in *. rewrite Forall_forall in Hgiven, Hver.
  destruct (Hgiven r Hr) as [Hne Hns].
  assert (data !!! "event_id" = Attendance.event_id r) as Hte by by rewrite lookup_total_alt, He.
  assert (data !!! "student_id" = Attendance.student_id r) as Hts
    by by rewrite lookup_total_alt, Hs.
  destruct (mark_attendance_created session data env st') as (student & _ & _ & ->);
    [by apply reachable_ok|done| | | | |done|done].
  - rewrite He. simpl. by apply negb_true_iff, String.eqb_neq.
  - rewrite Hs. simpl. by apply negb_true_iff, String.eqb_neq.
  - rewrite Hte, Hts. subst st'. unfold delete_attendance. rewrite Hadmin. simpl.
    unfold records_of. simpl. apply head_None.
    apply (fetchone_select_None
             (λ r0, Attendance.event_id r0 = Attendance.event_id r ∧
                    Attendance.student_id r0 = Attendance.student_id r)).
    apply Forall_forall. intros r' [Hid Hin]%delete_where_elem [He' Hs'].
    apply Hid. f_equal.
    apply (NoDup_fmap_eq (λ r, (Attendance.event_id r, Attendance.student_id r))
             (attendance st)); [apply Hok|done..|by rewrite He', Hs'].
  - rewrite Hts. subst st'. unfold delete_attendance. rewrite Hadmin. simpl.
    unfold verified_student. simpl. by apply Hver.
Qed.

Lemma record1_stored : Campus.record1 ∈ attendance Scenario.db3.
Proof.
  apply (fetchone_select_Some (λ r, Attendance.event_id r = "event1")).
  vm_compute. reflexivity.
Qed.

Lemma unmark_then_mark_witness :
  (mark_attendance Scenario.admin Scenario.mark_request Scenario.env3
     (delete_attendance Scenario.admin "attendance_1767225720_a15b0044" Scenario.db3).2).1
  = (201, json_message "Attendance marked successfully").
Proof.
  apply (unmark_then_mark Scenario.admin Scenario.mark_request Scenario.env3 Scenario.db3
           Campus.record1 db3_reachable eq_refl record1_stored); [reflexivity..|].
  apply (bool_decide_unpack _). vm_compute. exact I.
Defined.

(** ** Changing a password *)

Lemma get_or_empty_credentials (e p : string) :
  get_or_empty {[ "email" := e; "password" := p ]} "email" = e ∧
  get_or_empty {[ "email" := e; "password" := p ]} "password" = p.
Proof.
  unfold get_or_empty. split.
  - by rewrite lookup_insert_eq.
  - by rewrite lookup_insert_ne, lookup_singleton_eq.
Qed.

(** X24.  In a store the application can reach, a profile update by the
    user or an admin that supplies a password of at least 6 characters
    and no email answers 200.  Afterwards, if the user's stored email is
    not empty, the user logs in with that email and the new password; if
    it is empty, login answers 400.  In both cases the old password, if
    different, is no longer accepted for that email. *)
Theorem change_password_then_login session viewer user_id data st u p :
  reachable st →
  not_self_nor_admin session user_id = false →
  u ∈ users st → Users.id u = user_id →
  data !! "password" = Some p → 6 <= String.length p → data !! "email" = None →
  let st' := (update_user session user_id data st).2 in
  (update_user session user_id data st).1 = (200, json_message "Profile updated successfully") ∧
  (Users.email u ≠ "" →
   ∃ ud,
     login viewer {[ "email" := Users.email u; "password" := p ]} st'
     = ((200, json_user ud),
        <["role" := Users.role u]> (<["user_id" := user_id]> viewer)) ∧
     ud_id ud = user_id ∧ ud_email ud = Users.email u) ∧
  (Users.email u = "" →
   login viewer {[ "email" := Users.email u; "password" := p ]} st'
   = ((400, json_error "Email and password required"), viewer)) ∧
  (Users.password u ≠ p →
   ∀ body viewer',
     login viewer {[ "email" := Users.email u; "password" := Users.password u ]} st'
     ≠ ((200, body), viewer')).
Proof.
  intros Hreach Hauth Hu Hid Hp Hlen Hnoemail st'.
  assert (reachable st') as Hreach'
    by apply (reachable_request session (UpdateUser user_id data) st Hreach).
  pose proof (reachable_ok st Hreach) as Hok.
  pose proof (ok_emails st Hok) as Hlow. unfold emails_lowercase in Hlow.
  rewrite Forall_forall in Hlow. specialize (Hlow u Hu).
  assert (update_user session user_id data st
          = ((200, json_message "Profile updated successfully"),
             set_users st
               (update_where (λ v, Users.id v = user_id)
                  (λ v, foldl set_user_column v (update_user_fields data)) (users st))))
    as Hupdate.
  { unfold update_user, users_update. rewrite Hauth.
    assert (("password", p) ∈ update_user_fields data) as Hfield.
    { unfold update_user_fields. rewrite Hp, decide_True by done.
      rewrite !elem_of_app. right. right. right. left. left. }
    rewrite decide_False
      by (intros Hnil; rewrite Hnil in Hfield; by apply elem_of_nil in Hfield).
    rewrite decide_False; [done|]. intros [(a & Ha & Hin)%list_elem_of_fmap _].
    revert Hin. unfold update_user_fields. rewrite Hnoemail, Hp.
    destruct (data !! "first_name"), (data !! "last_name"), (data !! "profile_photo");
      case_decide; simpl; intros Hin; set_solver. }
  subst st'. rewrite Hupdate in Hreach' |- *. simpl in Hreach' |- *.
  set (u' := foldl set_user_column u (update_user_fields data)).
  set (st' := set_users st _) in *.
  pose proof (sound_emails st' (reachable_sound st' Hreach')) as Hunique.
  assert (u' ∈ users st') as Hu'.
  { subst st' u'. simpl. unfold update_where. apply list_elem_of_fmap.
    exists u. split; [|done]. by rewrite decide_True. }
  assert (Users.email u' = Users.email u ∧ Users.password u' = p ∧
          Users.id u' = user_id ∧ Users.role u' = Users.role u) as (He' & Hp' & Hid' & Hr').
  { subst u'. rewrite update_user_fields_assign, Hnoemail, Hp. simpl.
    by rewrite decide_True. }
  pose proof (get_or_empty_credentials (Users.email u) p) as [Hce Hcp].
  pose proof (get_or_empty_credentials (Users.email u) (Users.password u)) as [Hoe Hop].
  split_and!; [done| | |].
  - intros Hemail. rewrite login_checked;
      [|by rewrite Hce
       |rewrite Hcp; intros Hempty; rewrite Hempty in Hlen; simpl in Hlen; lia].
    rewrite Hce, Hcp, Hlow, <- He', <- Hp'.
    rewrite fetchone_user_by_credentials by done.
    rewrite Hid', Hr'. eexists. split_and!; [done|done|]. simpl. by rewrite He'.
  - intros Hemail. unfold login. simpl. by rewrite Hce, Hemail.
  - intros Hchanged body viewer' Hlogin.
    apply login_accepted in Hlogin as (v & Hv & Hve & Hvp & _).
    rewrite Hoe, Hlow in Hve. rewrite Hop in Hvp.
    assert (v = u') as ->.
    { apply (NoDup_fmap_eq Users.email (users st')); [done..|congruence]. }
    congruence.
Qed.

Lemma change_password_then_login_witness :
  (update_user Scenario.student_session Scenario.student {[ "password" := "newsecret" ]}
     Campus.db5).1
  = (200, json_message "Profile updated successfully") ∧
  (∃ ud,
     login ∅ {[ "email" := "a@x.com"; "password" := "newsecret" ]}
       (update_user Scenario.student_session Scenario.student {[ "password" := "newsecret" ]}
          Campus.db5).2
     = ((200, json_user ud), {[ "role" := "student"; "user_id" := Scenario.student ]}) ∧
     ud_id ud = Scenario.student ∧ ud_email ud = "a@x.com") ∧
  ∀ body viewer',
    login ∅ {[ "email" := "a@x.com"; "password" := "secret1" ]}
      (update_user Scenario.student_session Scenario.student {[ "password" := "newsecret" ]}
         Campus.db5).2
    ≠ ((200, body), viewer').
Proof.
  destruct (change_password_then_login Scenario.student_session ∅ Scenario.student
              {[ "password" := "newsecret" ]} Campus.db5 Campus.user1 "newsecret"
              db5_reachable eq_refl user1_stored_db5 eq_refl)
    as (Hupdate & Hlogin & _ & Hold); [reflexivity|vm_compute; lia|reflexivity|].
  split_and!; [exact Hupdate|by apply Hlogin|by apply Hold].
Defined.
